(** * Server error handler of the fastify web application

    A shallow embedding of
    [packages/modules/server/src/server/error.ts]: the handler that
    [errorHandler] registers through [app.setErrorHandler].

    JavaScript data is kept as the handler sees it: strings are sequences
    of UTF-16 code units, numbers on the paths of interest are integers,
    and an absent property is [None].  Effects (hook invocations, logger
    calls, operations on [reply], the asynchronous collaborators) are
    recorded in a trace, in call order, by a small writer/completion
    monad whose completions are the ones of the language: normal,
    [return] and [throw]. *)

From Stdlib Require Import List ZArith NArith Bool String Ascii Lia.
Import ListNotations.

Set Implicit Arguments.
Set Default Proof Using "Type".

Local Open Scope string_scope.
Local Open Scope list_scope.

(** ** JavaScript strings *)

Definition jsstring := list N.

(** An ASCII literal of the source as a sequence of code units. *)
Definition lit (s : string) : jsstring :=
  List.map N_of_ascii (list_ascii_of_string s).

Definition jsstring_eqb (a b : jsstring) : bool :=
  if list_eq_dec N.eq_dec a b then true else false.

Definition dollar : N := 36.
Definition ampersand : N := 38.
Definition apostrophe : N := 39.
Definition backtick : N := 96.
Definition dquote : N := 34.

(** [a.startsWith(p)] *)
Fixpoint startsWith (p s : jsstring) : bool :=
  match p, s with
  | [], _ => true
  | _ :: _, [] => false
  | x :: p', y :: s' => N.eqb x y && startsWith p' s'
  end.

(** The text before and after the first occurrence of [pat] in [s]. *)
Fixpoint splitFirst (pat s : jsstring) : option (jsstring * jsstring) :=
  if startsWith pat s then Some ([], skipn (List.length pat) s)
  else
    match s with
    | [] => None
    | c :: s' =>
        match splitFirst pat s' with
        | Some (before, after) => Some (c :: before, after)
        | None => None
        end
    end.

(** [s.includes(x)] *)
Definition includes (x s : jsstring) : bool :=
  match splitFirst x s with Some _ => true | None => false end.

(** GetSubstitution of ECMA-262 for a string pattern: there are no
    captures, so only [$$], [$&], [$`] and [$'] are replacement patterns
    and every other [$] stands for itself. *)
Fixpoint getSubstitution (matched before after replacement : jsstring)
  : jsstring :=
  match replacement with
  | [] => []
  | c :: r =>
      if N.eqb c dollar then
        match r with
        | [] => [dollar]
        | d :: r' =>
            if N.eqb d dollar then
              dollar :: getSubstitution matched before after r'
            else if N.eqb d ampersand then
              matched ++ getSubstitution matched before after r'
            else if N.eqb d backtick then
              before ++ getSubstitution matched before after r'
            else if N.eqb d apostrophe then
              after ++ getSubstitution matched before after r'
            else dollar :: getSubstitution matched before after r
        end
      else c :: getSubstitution matched before after r
  end.

(** [s.replace(pat, replacement)] with a string pattern: the first
    occurrence only, and [s] itself when there is none. *)
Definition replace (s pat replacement : jsstring) : jsstring :=
  match splitFirst pat s with
  | None => s
  | Some (before, after) =>
      before ++ getSubstitution pat before after replacement ++ after
  end.

(** [parts.join(sep)] *)
Fixpoint join (sep : jsstring) (parts : list jsstring) : jsstring :=
  match parts with
  | [] => []
  | [x] => x
  | x :: rest => x ++ sep ++ join sep rest
  end.

(** ** UTF-8 length, as [Buffer.byteLength(s, 'utf8')] computes it *)

Definition isLeadSurrogate (c : N) : bool :=
  (N.leb 55296 c && N.leb c 56319)%N.
Definition isTrailSurrogate (c : N) : bool :=
  (N.leb 56320 c && N.leb c 57343)%N.

Definition utf8OfCodePoint (cp : N) : list N :=
  (if cp <? 128 then [cp]
   else if cp <? 2048 then
     [N.lor 192 (N.shiftr cp 6); N.lor 128 (N.land cp 63)]
   else if cp <? 65536 then
     [N.lor 224 (N.shiftr cp 12);
      N.lor 128 (N.land (N.shiftr cp 6) 63);
      N.lor 128 (N.land cp 63)]
   else
     [N.lor 240 (N.shiftr cp 18);
      N.lor 128 (N.land (N.shiftr cp 12) 63);
      N.lor 128 (N.land (N.shiftr cp 6) 63);
      N.lor 128 (N.land cp 63)])%N.

Definition replacementCharacter : N := 65533.

(** A surrogate pair is one code point; a lone surrogate is encoded as
    U+FFFD. *)
Fixpoint utf8Encode (s : jsstring) : list N :=
  match s with
  | [] => []
  | c :: rest =>
      if isLeadSurrogate c then
        match rest with
        | d :: rest' =>
            if isTrailSurrogate d then
              utf8OfCodePoint
                (65536 + N.shiftl (c - 55296) 10 + (d - 56320))%N
                ++ utf8Encode rest'
            else utf8OfCodePoint replacementCharacter ++ utf8Encode rest
        | [] => utf8OfCodePoint replacementCharacter
        end
      else if isTrailSurrogate c then
        utf8OfCodePoint replacementCharacter ++ utf8Encode rest
      else utf8OfCodePoint c ++ utf8Encode rest
  end.

Definition byteLength (s : jsstring) : Z := Z.of_nat (List.length (utf8Encode s)).

(** ** Values *)

Inductive JsValue : Type :=
| JsUndefined
| JsNull
| JsBool (b : bool)
| JsNum (n : Z)
| JsStr (s : jsstring)
| JsObj (ref : nat).

(** [isNil] of [@tinkoff/utils/is/nil]: [null] or [undefined]. *)
Definition isNil (v : JsValue) : bool :=
  match v with
  | JsUndefined | JsNull => true
  | _ => false
  end.

(** ToBoolean, the test of [if (result)]. *)
Definition truthy (v : JsValue) : bool :=
  match v with
  | JsUndefined | JsNull => false
  | JsBool b => b
  | JsNum n => negb (Z.eqb n 0)
  | JsStr s => match s with [] => false | _ => true end
  | JsObj _ => true
  end.

(** [status || fallback] on an optional number *)
Definition orElse (status : option Z) (fallback : Z) : Z :=
  match status with
  | Some s => if Z.eqb s 0 then fallback else s
  | None => fallback
  end.

(** [status >= bound]; the comparison with [undefined] is false. *)
Definition geq (status : option Z) (bound : Z) : bool :=
  match status with
  | Some s => Z.leb bound s
  | None => false
  end.

(** [`${x}`] on an optional string *)
Definition interpolate (x : option jsstring) : jsstring :=
  match x with
  | Some s => s
  | None => lit "undefined"
  end.

(** ** Errors, requests, log records, reply operations *)

(** The properties of the caught error that the handler reads. *)
Record CaughtError : Type := {
  name : jsstring;
  message : jsstring;
  stack : option jsstring;
  httpStatus : option Z;
  statusCode : option Z;
  code : option jsstring;
  nextUrl : option jsstring
}.

(** What a [throw] carries: an error object, or a [TypeError] raised by
    the runtime. *)
Inductive Thrown : Type :=
| ThrownError (e : CaughtError)
| ThrownTypeError (reason : jsstring).

Inductive Result (A : Type) : Type :=
| Ok (a : A)
| Err (t : Thrown).
Arguments Ok {A} a.
Arguments Err {A} t.

Record Request : Type := {
  ip : jsstring;
  headers : list (jsstring * jsstring);
  url : jsstring
}.

(** [request.headers[key]] *)
Fixpoint header (hs : list (jsstring * jsstring)) (key : jsstring)
  : option jsstring :=
  match hs with
  | [] => None
  | (k, v) :: rest => if jsstring_eqb k key then Some v else header rest key
  end.

Record RequestInfo : Type := {
  info_ip : jsstring;
  requestId : option jsstring;
  info_url : jsstring
}.

(** The logger methods the handler calls: [log.info], [log.warn],
    [log.error]. *)
Inductive LogLevel : Type := level_info | level_warn | level_error.

Record LogRecord : Type := {
  event : jsstring;
  log_message : jsstring;
  log_error : option Thrown;
  log_requestInfo : option RequestInfo
}.

Inductive HeaderValue : Type :=
| HeaderString (s : jsstring)
| HeaderNumber (n : Z).

(** [reply.status], [reply.header], [reply.redirect] *)
Inductive ReplyOp : Type :=
| Status (statusCode : Z)
| Header (key : jsstring) (value : HeaderValue)
| Redirect (statusCode : Z) (target : option jsstring).

(** One awaited call of a hook: the operations it performed on [reply]
    and how its promise settled. *)
Record HookRun : Type := {
  replyOps : list ReplyOp;
  settled : Result JsValue
}.

Definition Hook : Type := CaughtError -> Request -> HookRun.

Inductive Collaborator : Type := FetchWebpackStats | RenderToString.

Inductive Event : Type :=
| Invoke (h : Hook)
| ByHook (op : ReplyOp)
| Log (level : LogLevel) (record : LogRecord)
| Reply (op : ReplyOp)
| Call (c : Collaborator).

(** ** Completions and the effect monad *)

Inductive Completion (A : Type) : Type :=
| Normal (a : A)
| Return (v : JsValue)
| Throw (t : Thrown).
Arguments Normal {A} a.
Arguments Return {A} v.
Arguments Throw {A} t.

Definition Eff (A : Type) : Type := (list Event * Completion A)%type.

Definition ret {A} (a : A) : Eff A := ([], Normal a).

Definition bind {A B} (m : Eff A) (k : A -> Eff B) : Eff B :=
  match m with
  | (t1, Normal a) => let (t2, c) := k a in (t1 ++ t2, c)
  | (t1, Return v) => (t1, Return v)
  | (t1, Throw t) => (t1, Throw t)
  end.

Declare Scope eff_scope.
Delimit Scope eff_scope with eff.
Notation "x <- m ;; k" := (bind m (fun x => k))
  (at level 61, m at next level, right associativity) : eff_scope.
Notation "m ;; k" := (bind m (fun _ => k))
  (at level 61, right associativity) : eff_scope.
Local Open Scope eff_scope.

Definition emit (e : Event) : Eff unit := ([e], Normal tt).
Definition returnWith {A} (v : JsValue) : Eff A := ([], Return v).
Definition throw {A} (t : Thrown) : Eff A := ([], Throw t).

Definition lift {A} (r : Result A) : Eff A :=
  match r with
  | Ok a => ret a
  | Err t => throw t
  end.

(** A call of a collaborator that is recorded in the trace. *)
Definition call {A} (c : Collaborator) (r : Result A) : Eff A :=
  emit (Call c) ;; lift r.

(** [try { body } catch (e) { handler }] *)
Definition tryCatch {A} (body : Eff A) (handler : Thrown -> Eff A) : Eff A :=
  match body with
  | (t1, Throw e) => let (t2, c) := handler e in (t1 ++ t2, c)
  | other => other
  end.

(** How the promise of an [async] function settles. *)
Inductive Outcome : Type :=
| Resolved (v : JsValue)
| Rejected (t : Thrown).

Definition Run : Type := (list Event * Outcome)%type.

(** The body of an [async] function, run to its end: falling off the end
    resolves with [undefined]. *)
Definition async (body : Eff unit) : Run :=
  match body with
  | (t, Normal _) => (t, Resolved JsUndefined)
  | (t, Return v) => (t, Resolved v)
  | (t, Throw e) => (t, Rejected e)
  end.

(** [await promise] *)
Definition await (p : Run) : Eff JsValue :=
  match p with
  | (t, Resolved v) => (t, Normal v)
  | (t, Rejected e) => (t, Throw e)
  end.

Definition logWith (level : LogLevel) (record : LogRecord) : Eff unit :=
  emit (Log level record).
Definition reply (op : ReplyOp) : Eff unit := emit (Reply op).

(** ** Reading a trace *)

Definition logsOf (t : list Event) : list (LogLevel * LogRecord) :=
  flat_map (fun e => match e with Log l r => [(l, r)] | _ => [] end) t.

Definition invokedIn (t : list Event) : list Hook :=
  flat_map (fun e => match e with Invoke h => [h] | _ => [] end) t.

Definition callsOf (t : list Event) : list Collaborator :=
  flat_map (fun e => match e with Call c => [c] | _ => [] end) t.

(** The operations on [reply], by hooks and by the handler, in order. *)
Definition replyOpsOf (t : list Event) : list ReplyOp :=
  flat_map (fun e => match e with
                     | ByHook op | Reply op => [op]
                     | _ => []
                     end) t.

(** The operations on [reply] that the handler itself performed. *)
Definition handlerOpsOf (t : list Event) : list ReplyOp :=
  flat_map (fun e => match e with Reply op => [op] | _ => [] end) t.

Definition isRedirect (op : ReplyOp) : bool :=
  match op with Redirect _ _ => true | _ => false end.

(** The state of the reply after a sequence of operations. *)
Record ReplyState : Type := {
  sentStatus : option Z;
  sentHeaders : list (jsstring * HeaderValue);
  redirectedTo : option (option jsstring)
}.

Definition emptyReply : ReplyState :=
  {| sentStatus := None; sentHeaders := []; redirectedTo := None |}.

Fixpoint setHeader (key : jsstring) (value : HeaderValue)
  (hs : list (jsstring * HeaderValue)) : list (jsstring * HeaderValue) :=
  match hs with
  | [] => [(key, value)]
  | (k, v) :: rest =>
      if jsstring_eqb k key then (key, value) :: rest
      else (k, v) :: setHeader key value rest
  end.

Fixpoint getHeader (key : jsstring) (hs : list (jsstring * HeaderValue))
  : option HeaderValue :=
  match hs with
  | [] => None
  | (k, v) :: rest => if jsstring_eqb k key then Some v else getHeader key rest
  end.

Definition applyOp (s : ReplyState) (op : ReplyOp) : ReplyState :=
  match op with
  | Status c =>
      {| sentStatus := Some c; sentHeaders := sentHeaders s;
         redirectedTo := redirectedTo s |}
  | Header k v =>
      {| sentStatus := sentStatus s; sentHeaders := setHeader k v (sentHeaders s);
         redirectedTo := redirectedTo s |}
  | Redirect c target =>
      {| sentStatus := Some c; sentHeaders := sentHeaders s;
         redirectedTo := Some target |}
  end.

Definition replyAfter (t : list Event) : ReplyState :=
  fold_left applyOp (replyOpsOf t) emptyReply.

(** ** The handler *)

Section ErrorHandler.

(** What the module imports: [@tinkoff/errors], [@tinkoff/url],
    [@tramvai/safe-strings], [react], [react-dom/server],
    [@loadable/server], and the string method [toLowerCase]. *)
Variables Stats Extractor ParsedUrl Component Element : Type.

Variables isRedirectFoundError isNotFoundError isHttpError
  : CaughtError -> bool.
Variable toLowerCase : jsstring -> jsstring.
Variable parse : jsstring -> Result ParsedUrl.

Record SerializedError : Type := {
  status : Z;
  serialized_message : jsstring;
  serialized_stack : option jsstring
}.

Record Props : Type := {
  props_error : SerializedError;
  props_url : ParsedUrl
}.

(** The three kinds of argument [safeStringify] is given. *)
Inductive Json : Type :=
| JsonUrl (u : ParsedUrl)
| JsonString (s : jsstring)
| JsonError (e : SerializedError).

Variable createElement : Component -> Props -> Element.
Variable renderToString : Element -> Result jsstring.
Variable safeStringify : Json -> Result jsstring.
Variable newChunkExtractor : Stats -> list jsstring -> Result Extractor.
Variables getStyleTags getScriptTags : Extractor -> Result jsstring.

(** [require('@/__private__/error').default], which throws when the
    application has no such module. *)
Variable requireRootErrorBoundary : Result Component.

(** The dependencies [errorHandler] is given; [log] is the trace. *)
Record Deps : Type := {
  beforeError : option (list Hook);
  afterError : option (list Hook);
  fetchWebpackStats : unit -> Result Stats
}.

Variable deps : Deps.

Section Invocation.

Variable error : CaughtError.
Variable request : Request.

(** [await handler(error, request, reply)] *)
Definition invoke (handler : Hook) : Eff JsValue :=
  emit (Invoke handler) ;;
  (List.map ByHook (replyOps (handler error request)), Normal tt) ;;
  lift (settled (handler error request)).

(** The [for ... of] loop of [runHandlers]. *)
Fixpoint runHandlersLoop (handlers : list Hook) : Eff unit :=
  match handlers with
  | [] => ret tt
  | handler :: rest =>
      result <- invoke handler ;;
      if truthy result then returnWith result
      else runHandlersLoop rest
  end.

Definition runHandlers (handlers : option (list Hook)) : Run :=
  async
    match handlers with
    | Some hs => runHandlersLoop hs
    | None => ret tt
    end.

Definition noCache : jsstring := lit "no-store, no-cache, must-revalidate".

Definition newline : jsstring := [10%N].

Record Classification : Type := {
  cls_httpStatus : Z;
  logLevel : LogLevel;
  logEvent : jsstring;
  logMessage : jsstring
}.

(** The message of the [TypeError] for a method call on [undefined]. *)
Definition undefinedToLowerCase : jsstring :=
  lit "Cannot read properties of undefined (reading 'toLowerCase')".

(** [error.code.toLowerCase()] *)
Definition codeToLowerCase : Result jsstring :=
  match code error with
  | Some c => Ok (toLowerCase c)
  | None => Err (ThrownTypeError undefinedToLowerCase)
  end.

Definition fastifyMessage (series : jsstring) (lowered : jsstring)
  : jsstring :=
  lit "This is Fastify " ++ series ++ lit " error, you can check "
    ++ interpolate (code error)
    ++ lit " code in https://www.fastify.io/docs/latest/Reference/Errors/#"
    ++ lowered ++ lit " page".

(** The assignments to [httpStatus], [logLevel], [logEvent] and
    [logMessage] by the kind of the error. *)
Definition classify : Eff Classification :=
  if isNotFoundError error then
    ret {| cls_httpStatus := orElse (httpStatus error) 404;
           logLevel := level_info;
           logEvent := lit "not-found-error";
           logMessage :=
             lit "NotFoundError, action execution will be aborted."
             ++ newline
             ++ lit "Not Found page is common use-case with this error - https://tramvai.dev/docs/features/routing/wildcard-routes/#not-found-page" |}
  else if isHttpError error then
    if geq (httpStatus error) 500 then
      ret {| cls_httpStatus := orElse (httpStatus error) 500;
             logLevel := level_error;
             logEvent := lit "send-server-error";
             logMessage :=
               lit "This is expected server error, here is most common cases:"
               ++ newline
               ++ lit "- Router Guard blocked request - https://tramvai.dev/docs/features/routing/hooks-and-guards#guards"
               ++ newline
               ++ lit "- Forced Page Error Boundary render with 5xx code in Guard or Action - https://tramvai.dev/docs/features/error-boundaries#force-render-page-error-boundary-in-action" |}
    else
      ret {| cls_httpStatus := orElse (httpStatus error) 500;
             logLevel := level_info;
             logEvent := lit "http-error";
             logMessage :=
               lit "This is expected server error, here is most common cases:"
               ++ newline
               ++ lit "  - Route is not found - https://tramvai.dev/docs/features/routing/flow#server-navigation"
               ++ newline
               ++ lit "  - Forced Page Error Boundary render with 4xx code in Guard or Action - https://tramvai.dev/docs/features/error-boundaries#force-render-page-error-boundary-in-action"
               ++ newline
               ++ lit "  - Request Limiter blocked request with 429 code - https://tramvai.dev/docs/references/modules/request-limiter/" |}
  else
    if geq (statusCode error) 500 then
      lowered <- lift codeToLowerCase ;;
      ret {| cls_httpStatus := orElse (statusCode error) 500;
             logLevel := level_error;
             logEvent := lit "send-server-error";
             logMessage := fastifyMessage (lit "5xx") lowered |}
    else if geq (statusCode error) 400 then
      lowered <- lift codeToLowerCase ;;
      ret {| cls_httpStatus := orElse (statusCode error) 500;
             logLevel := level_info;
             logEvent := lit "fastify-error-4xx";
             logMessage := fastifyMessage (lit "4xx") lowered |}
    else
      ret {| cls_httpStatus := orElse (statusCode error) 500;
             logLevel := level_error;
             logEvent := lit "send-server-error";
             logMessage :=
               lit "Unexpected server error. Error cause will be in "
               ++ [dquote] ++ lit "error" ++ [dquote]
               ++ lit " parameter." ++ newline
               ++ lit "  Most likely an error has occurred in the rendering of the current React page component"
               ++ newline
               ++ lit "  You can try to find relative logs by using "
               ++ [dquote] ++ lit "x-request-id" ++ [dquote]
               ++ lit " header" |}.

Definition requestInfoOf : RequestInfo :=
  {| info_ip := ip request;
     requestId := header (headers request) (lit "x-request-id");
     info_url := url request |}.

(** [RootErrorBoundary] stays [null] when the [require] throws. *)
Definition RootErrorBoundary : option Component :=
  match requireRootErrorBoundary with
  | Ok boundary => Some boundary
  | Err _ => None
  end.

(** The sentence appended to [logMessage] before it is logged (the
    template ends with a quote character). *)
Definition withBoundaryNote (logMessage : jsstring) : jsstring :=
  logMessage ++ newline
    ++ match RootErrorBoundary with
       | Some _ => lit "Root Error Boundary will be rendered for the client"
       | None =>
           lit "You can add Error Boundary for better UX - https://tramvai.dev/docs/features/error-boundaries"
       end
    ++ lit "'".

(** The strings the collaborators produce inside the [try] block. *)
Record FallbackParts : Type := {
  markup : jsstring;
  serializedUrl : jsstring;
  serializedMessage : jsstring;
  serializedErrorJson : jsstring;
  styleTags : jsstring;
  scriptTags : jsstring
}.

(** The calls of the [try] block, in evaluation order. *)
Definition collectFallbackParts (boundary : Component)
  (requestInfo : RequestInfo) (httpStatus : Z) : Eff FallbackParts :=
  stats <- call FetchWebpackStats (fetchWebpackStats deps tt) ;;
  extractor <- lift (newChunkExtractor stats [lit "rootErrorBoundary"]) ;;
  url <- lift (parse (info_url requestInfo)) ;;
  let serializedError :=
    {| status := httpStatus;
       serialized_message := message error;
       serialized_stack := stack error |} in
  rendered <- call RenderToString
    (renderToString
       (createElement boundary
          {| props_error := serializedError; props_url := url |})) ;;
  jsonUrl <- lift (safeStringify (JsonUrl url)) ;;
  jsonMessage <-
    lift (safeStringify (JsonString (serialized_message serializedError))) ;;
  jsonError <- lift (safeStringify (JsonError serializedError)) ;;
  styles <- lift (getStyleTags extractor) ;;
  scripts <- lift (getScriptTags extractor) ;;
  ret {| markup := rendered;
         serializedUrl := jsonUrl;
         serializedMessage := jsonMessage;
         serializedErrorJson := jsonError;
         styleTags := styles;
         scriptTags := scripts |}.

Definition serverStateScript (p : FallbackParts) : jsstring :=
  lit "<script>"
    ++ (lit "window.serverUrl = " ++ serializedUrl p ++ lit ";")
    ++ (lit "window.serverError = new Error(" ++ serializedMessage p
          ++ lit ");")
    ++ (lit "Object.assign(window.serverError, " ++ serializedErrorJson p
          ++ lit ");")
    ++ lit "</script>".

(** [.filter(Boolean)] on strings drops the empty ones. *)
Definition nonEmpty (s : jsstring) : bool :=
  match s with [] => false | _ => true end.

Definition headInjection (p : FallbackParts) : jsstring :=
  join newline
    (filter nonEmpty
       [serverStateScript p; styleTags p; scriptTags p; lit "</head>"]).

Definition fallbackBody (p : FallbackParts) : jsstring :=
  replace (markup p) (lit "</head>") (headInjection p).

Definition renderedRecord : LogRecord :=
  {| event := lit "render-root-error-boundary";
     log_message := lit "Render Root Error Boundary for the client";
     log_error := None;
     log_requestInfo := None |}.

Definition failedRecord (e : Thrown) : LogRecord :=
  {| event := lit "failed-root-error-boundary";
     log_message := lit "Root Error Boundary rendering failed";
     log_error := Some e;
     log_requestInfo := None |}.

(** The [try ... catch] around the rendering of the boundary. *)
Definition renderFallback (boundary : Component)
  (requestInfo : RequestInfo) (httpStatus : Z) : Eff unit :=
  tryCatch
    (parts <- collectFallbackParts boundary requestInfo httpStatus ;;
     let body := fallbackBody parts in
     logWith level_info renderedRecord ;;
     reply (Header (lit "Content-Type")
              (HeaderString (lit "text/html; charset=utf-8"))) ;;
     reply (Header (lit "Content-Length") (HeaderNumber (byteLength body))) ;;
     reply (Header (lit "Cache-Control") (HeaderString noCache)) ;;
     returnWith (JsStr body))
    (fun e => logWith level_warn (failedRecord e)).

Definition redirectRecord (requestInfo : RequestInfo) : LogRecord :=
  {| event := lit "redirect-found-error";
     log_message :=
       lit "RedirectFoundError, redirect to " ++ interpolate (nextUrl error)
         ++ lit ", action execution will be aborted." ++ newline
         ++ lit "More information about redirects - https://tramvai.dev/docs/features/routing/redirects";
     log_error := Some (ThrownError error);
     log_requestInfo := Some requestInfo |}.

Definition classifiedRecord (c : Classification)
  (requestInfo : RequestInfo) : LogRecord :=
  {| event := logEvent c;
     log_message := withBoundaryNote (logMessage c);
     log_error := Some (ThrownError error);
     log_requestInfo := Some requestInfo |}.

(** The body of the function given to [app.setErrorHandler]. *)
Definition handlerBody : Eff unit :=
  beforeErrorResult <- await (runHandlers (beforeError deps)) ;;
  if negb (isNil beforeErrorResult) then returnWith beforeErrorResult
  else
    let requestInfo := requestInfoOf in
    if isRedirectFoundError error then
      logWith level_info (redirectRecord requestInfo) ;;
      reply (Header (lit "cache-control") (HeaderString noCache)) ;;
      reply (Redirect (orElse (httpStatus error) 307) (nextUrl error)) ;;
      returnWith JsUndefined
    else
      c <- classify ;;
      logWith (logLevel c) (classifiedRecord c requestInfo) ;;
      afterErrorResult <- await (runHandlers (afterError deps)) ;;
      if negb (isNil afterErrorResult) then returnWith afterErrorResult
      else
        reply (Status (cls_httpStatus c)) ;;
        match RootErrorBoundary with
        | Some boundary =>
            renderFallback boundary requestInfo (cls_httpStatus c)
        | None => ret tt
        end ;;
        throw (ThrownError error).

Definition errorHandler : Run := async handlerBody.

End Invocation.

End ErrorHandler.

Arguments JsonUrl {ParsedUrl} u.
Arguments JsonString {ParsedUrl} s.
Arguments JsonError {ParsedUrl} e.
Arguments lit s : simpl never.

(** ** Predicates on runs and traces *)

(** The events one awaited hook contributes to the trace. *)
Definition hookTrace (error : CaughtError) (request : Request) (h : Hook)
  : list Event :=
  Invoke h :: List.map ByHook (replyOps (h error request)).

(** The hook resolves with a falsy value, so the loop goes on. *)
Definition declines (error : CaughtError) (request : Request) (h : Hook)
  : bool :=
  match settled (h error request) with
  | Ok v => negb (truthy v)
  | Err _ => false
  end.

(** The handler itself has called [reply.redirect]. *)
Definition redirectedByHandler (t : list Event) : bool :=
  existsb isRedirect (handlerOpsOf t).

(** A response has been given: the promise resolves with a value that is
    not nil, or the handler has issued a redirect. *)
Definition returnsResponse (r : Run) : bool :=
  match r with
  | (t, Resolved v) => negb (isNil v) || redirectedByHandler t
  | (t, Rejected _) => redirectedByHandler t
  end.

Definition rethrows (r : Run) : bool :=
  match r with
  | (_, Rejected _) => true
  | (_, Resolved _) => false
  end.

(** The event names of the source. *)
Definition eventVocabulary : list jsstring :=
  [lit "redirect-found-error"; lit "not-found-error"; lit "http-error";
   lit "send-server-error"; lit "fastify-error-4xx";
   lit "render-root-error-boundary"; lit "failed-root-error-boundary"].

(** The event names of the written specification. *)
Definition specVocabulary : list jsstring :=
  [lit "redirect-found-error"; lit "not-found-error"; lit "http-error";
   lit "send-server-error"; lit "generic-error-4xx";
   lit "render-fallback"; lit "failed-fallback-render"].

Definition hasEvent (name : jsstring) (t : list Event) : bool :=
  existsb (fun lr => jsstring_eqb (event (snd lr)) name) (logsOf t).

Definition noDollar (s : jsstring) : bool :=
  negb (existsb (N.eqb dollar) s).

(** A trace in which only hooks have acted. *)
Definition hooksOnly (t : list Event) : Prop :=
  logsOf t = [] /\ handlerOpsOf t = [] /\ callsOf t = [].

(** ** A concrete application

    Instances of the imported functions and a few errors, hooks and
    boundaries, on which the handler can be run.  The guards of
    [@tinkoff/errors] are instantiated by a test on [error.name], the URL
    parser by the identity, [safeStringify] by quoting, and a component by
    its render function. *)

Module Demo.

Definition isRedirectFoundError (e : CaughtError) : bool :=
  jsstring_eqb (name e) (lit "RedirectFoundError").
Definition isNotFoundError (e : CaughtError) : bool :=
  jsstring_eqb (name e) (lit "NotFoundError").
Definition isHttpError (e : CaughtError) : bool :=
  jsstring_eqb (name e) (lit "HttpError").

(** [toLowerCase] on the ASCII letters. *)
Definition toLowerCase (s : jsstring) : jsstring :=
  List.map (fun c => if (N.leb 65 c && N.leb c 90)%N then (c + 32)%N else c) s.

(** The parsed URL is kept as its text. *)
Definition parse (u : jsstring) : Result jsstring := Ok u.

(** A component is its render function. *)
Definition Component : Type := Props jsstring -> Result jsstring.
Definition createElement (c : Component) (p : Props jsstring)
  : Result jsstring := c p.
Definition renderToString (el : Result jsstring) : Result jsstring := el.

Definition quoted (s : jsstring) : jsstring := [dquote] ++ s ++ [dquote].

Definition safeStringify (j : Json jsstring) : Result jsstring :=
  match j with
  | JsonUrl u => Ok (quoted u)
  | JsonString s => Ok (quoted s)
  | JsonError e =>
      Ok (lit "{" ++ quoted (lit "message") ++ lit ":"
            ++ quoted (serialized_message e) ++ lit "}")
  end.

Definition newChunkExtractor (_ : unit) (_ : list jsstring) : Result unit :=
  Ok tt.
Definition getStyleTags (_ : unit) : Result jsstring := Ok [].
Definition getScriptTags (_ : unit) : Result jsstring :=
  Ok (lit "<script src=/boundary.js></script>").

Definition fetchOk (_ : unit) : Result unit := Ok tt.
Definition fetchFails (_ : unit) : Result unit :=
  Err (ThrownTypeError (lit "stats.json is missing")).

(** Boundaries: a whole document, and a fragment without a head. *)
Definition documentBoundary : Component :=
  fun _ => Ok (lit "<html><head><title>Error</title></head><body>Oops</body></html>").
Definition fragmentBoundary : Component :=
  fun _ => Ok (lit "<div>Something went wrong</div>").

Definition request : Request :=
  {| ip := lit "10.0.0.1";
     headers := [(lit "x-request-id", lit "r-1")];
     url := lit "/cart" |}.

Definition plainError (n : jsstring) : CaughtError :=
  {| name := n; message := lit "boom"; stack := None;
     httpStatus := None; statusCode := None; code := None;
     nextUrl := None |}.

(** A fastify error: 404 with its symbolic code. *)
Definition fastifyNotFound : CaughtError :=
  {| name := lit "FastifyError"; message := lit "Route GET:/cart not found";
     stack := None; httpStatus := None; statusCode := Some 404%Z;
     code := Some (lit "FST_ERR_NOT_FOUND"); nextUrl := None |}.

(** A 4xx error with no [code], as [http-errors] creates them. *)
Definition unsupportedMediaType : CaughtError :=
  {| name := lit "UnsupportedMediaTypeError"; message := lit "unsupported";
     stack := None; httpStatus := None; statusCode := Some 415%Z;
     code := None; nextUrl := None |}.

(** A domain HTTP error that declares no status. *)
Definition httpErrorNoStatus : CaughtError := plainError (lit "HttpError").

Definition httpError503 : CaughtError :=
  {| name := lit "HttpError"; message := lit "unavailable"; stack := None;
     httpStatus := Some 503%Z; statusCode := None; code := None;
     nextUrl := None |}.

Definition redirectError : CaughtError :=
  {| name := lit "RedirectFoundError"; message := lit "redirect";
     stack := None; httpStatus := None; statusCode := None; code := None;
     nextUrl := Some (lit "/login") |}.

Definition serverFault : CaughtError := plainError (lit "Error").

(** Hooks. *)
Definition hookUndefined : Hook :=
  fun _ _ => {| replyOps := []; settled := Ok JsUndefined |}.
Definition hookFalse : Hook :=
  fun _ _ => {| replyOps := []; settled := Ok (JsBool false) |}.
Definition hookEmptyString : Hook :=
  fun _ _ => {| replyOps := []; settled := Ok (JsStr []) |}.
Definition hookZero : Hook :=
  fun _ _ => {| replyOps := []; settled := Ok (JsNum 0) |}.
Definition hookPage : Hook :=
  fun _ _ => {| replyOps := [Status 404];
                settled := Ok (JsStr (lit "<h1>custom page</h1>")) |}.
Definition hookTeapot : Hook :=
  fun _ _ => {| replyOps := [Status 418]; settled := Ok JsUndefined |}.

Definition depsWith (before after : option (list Hook))
  (fetch : unit -> Result unit) : Deps unit :=
  {| beforeError := before; afterError := after; fetchWebpackStats := fetch |}.

Definition classification : CaughtError -> Eff Classification :=
  classify isNotFoundError isHttpError toLowerCase.

(** The handler of an application with the given boundary module and
    dependencies. *)
Definition handler (boundary : Result Component) (deps : Deps unit)
  : CaughtError -> Request -> Run :=
  errorHandler isRedirectFoundError isNotFoundError isHttpError toLowerCase
    parse createElement renderToString safeStringify newChunkExtractor
    getStyleTags getScriptTags boundary deps.

Definition noBoundary : Result Component :=
  Err (ThrownTypeError (lit "Cannot find module '@/__private__/error'")).

End Demo.

(** ** Further instances *)

Module Scenario.

(** A hook whose promise is rejected. *)
Definition hookFailure : Thrown := ThrownTypeError (lit "hook failed").

Definition hookThrows : Hook :=
  fun _ _ => {| replyOps := [Status 500]; settled := Err hookFailure |}.

(** A not-found error that declares no status. *)
Definition notFound : CaughtError := Demo.plainError (lit "NotFoundError").

(** An error of the HTTP layer with a status below 400 and no [code]. *)
Definition found302 : CaughtError :=
  {| name := lit "Error"; message := lit "moved"; stack := None;
     httpStatus := None; statusCode := Some 302%Z; code := None;
     nextUrl := None |}.

(** What the collaborators give for a fragment and for a document. *)
Definition fragmentParts : FallbackParts :=
  {| markup := lit "<div>Something went wrong</div>";
     serializedUrl := Demo.quoted (lit "/cart");
     serializedMessage := Demo.quoted (lit "boom");
     serializedErrorJson := lit "{}";
     styleTags := [];
     scriptTags := lit "<script src=/boundary.js></script>" |}.

Definition documentParts : FallbackParts :=
  {| markup := lit "<html><head></head><body></head></body></html>";
     serializedUrl := Demo.quoted (lit "/cart");
     serializedMessage := Demo.quoted (lit "boom");
     serializedErrorJson := lit "{}";
     styleTags := [];
     scriptTags := lit "<script src=/boundary.js></script>" |}.

End Scenario.

(** ** The client rendering

    [packages/modules/render/src/client/index.ts]: the function
    [rendering], which renders the application in the browser and returns
    a promise.  The page is what the executor of the promise leaves
    behind: the effects it has performed, in order, and the state of the
    promise.  [renderReact] and [renderer] are modules of the package; they
    are taken as given.  A call of [renderer] is described by how many
    times it calls [params.callback] before it returns, and by what it
    throws, if anything. *)

Module Client.

Inductive PromiseState : Type :=
| Pending
| Fulfilled
| RejectedWith (e : Thrown).

(** A renderer callback, [cb(renderErr)], may throw. *)
Definition Callback : Type := option Thrown -> Result unit.

Record RendererRun : Type := {
  callbacksDuringCall : nat;
  failure : option Thrown
}.

Section Rendering.

Variables Element Container RenderMode : Type.

(** [createElement(StrictMode, null, element)] *)
Variable strictMode : Element -> Element.

(** [renderReact({ di }, consumerContext)] *)
Variable renderReact : Result Element.

(** [document.querySelector('.application')] *)
Variable applicationContainer : option Container.

Record Params : Type := {
  element : Element;
  container : option Container;
  paramsRenderMode : option RenderMode
}.

Variable renderer : Params -> RendererRun.

Inductive Effect : Type :=
| LogDebug (message : jsstring)
| RemoveClass (selector className : jsstring)
| Notified (cb : Callback) (renderErr : option Thrown)
| ConsoleError (e : Thrown)
| CustomRendered (element : Element)
| Rendered (params : Params).

Record Page : Type := {
  effects : list Effect;
  promise : PromiseState
}.

Definition start : Page := {| effects := []; promise := Pending |}.

Definition perform (e : Effect) (pg : Page) : Page :=
  {| effects := effects pg ++ [e]; promise := promise pg |}.

(** A promise is settled once: later calls of [resolve] and [reject] do
    nothing. *)
Definition settle (p new : PromiseState) : PromiseState :=
  match p with
  | Pending => new
  | _ => p
  end.

Definition resolve (pg : Page) : Page :=
  {| effects := effects pg; promise := settle (promise pg) Fulfilled |}.

Definition reject (e : Thrown) (pg : Page) : Page :=
  {| effects := effects pg; promise := settle (promise pg) (RejectedWith e) |}.

Record Options : Type := {
  customRender : option (Element -> Result unit);
  extendRender : option (list (Element -> Result Element));
  useStrictMode : bool;
  rendererCallback : option (list Callback);
  renderMode : option RenderMode
}.

Variable options : Options.

(** [each((render) => { renderResult = render(renderResult); }, ...)] *)
Fixpoint extend (renders : list (Element -> Result Element))
  (renderResult : Element) : Result Element :=
  match renders with
  | [] => Ok renderResult
  | render :: rest =>
      match render renderResult with
      | Ok next => extend rest next
      | Err e => Err e
      end
  end.

(** The element after [renderReact] and the extensions. *)
Definition prepare : Result Element :=
  match renderReact with
  | Err e => Err e
  | Ok initial =>
      match extendRender options with
      | Some renders => extend renders initial
      | None => Ok initial
      end
  end.

(** The body of the [forEach]: [try { cb(renderErr) } catch (cbError)
    { console.error(cbError) }]. *)
Definition notify (renderErr : option Thrown) (pg : Page) (cb : Callback)
  : Page :=
  match cb renderErr with
  | Ok _ => perform (Notified cb renderErr) pg
  | Err cbError =>
      perform (ConsoleError cbError) (perform (Notified cb renderErr) pg)
  end.

Definition executeRendererCallbacks (renderErr : option Thrown) (pg : Page)
  : Page :=
  match rendererCallback options with
  | Some callbacks => fold_left (notify renderErr) callbacks pg
  | None => pg
  end.

Definition callback (pg : Page) : Page :=
  resolve
    (executeRendererCallbacks None
       (perform (RemoveClass (lit "html") (lit "no-js"))
          (perform (LogDebug (lit "App rendering")) pg))).

(** The executor given to [new Promise]; what it throws rejects the
    promise. *)
Definition rendering : Page :=
  match renderReact with
  | Err e => reject e start
  | Ok initial =>
      match
        match extendRender options with
        | Some renders => extend renders initial
        | None => Ok initial
        end
      with
      | Err e => reject e start
      | Ok renderResult =>
          match customRender options with
          | Some custom =>
              match custom renderResult with
              | Ok _ => perform (CustomRendered renderResult) start
              | Err e => reject e (perform (CustomRendered renderResult) start)
              end
          | None =>
              let params :=
                {| element :=
                     if useStrictMode options then strictMode renderResult
                     else renderResult;
                   container := applicationContainer;
                   paramsRenderMode := renderMode options |} in
              let run := renderer params in
              let pg :=
                Nat.iter (callbacksDuringCall run) callback
                  (perform (Rendered params) start) in
              match failure run with
              | None => pg
              | Some e => reject e (executeRendererCallbacks (Some e) pg)
              end
          end
      end
  end.

End Rendering.

Arguments LogDebug {Element Container RenderMode} message.
Arguments RemoveClass {Element Container RenderMode} selector className.
Arguments Notified {Element Container RenderMode} cb renderErr.
Arguments ConsoleError {Element Container RenderMode} e.
Arguments CustomRendered {Element Container RenderMode} element.
Arguments Rendered {Element Container RenderMode} params.

(** The callbacks notified, with their argument, in order. *)
Definition notifications {Element Container RenderMode : Type}
  (es : list (Effect Element Container RenderMode))
  : list (Callback * option Thrown) :=
  flat_map (fun e => match e with
                     | Notified cb arg => [(cb, arg)]
                     | _ => []
                     end) es.

(** What has been given to [console.error], in order. *)
Definition consoleErrors {Element Container RenderMode : Type}
  (es : list (Effect Element Container RenderMode)) : list Thrown :=
  flat_map (fun e => match e with ConsoleError x => [x] | _ => [] end) es.

(** The calls of [renderer], in order. *)
Definition renderings {Element Container RenderMode : Type}
  (es : list (Effect Element Container RenderMode))
  : list (Params Element Container RenderMode) :=
  flat_map (fun e => match e with Rendered p => [p] | _ => [] end) es.

(** What a callback throws when it is given [renderErr]. *)
Definition thrownBy (renderErr : option Thrown) (cb : Callback) : list Thrown :=
  match cb renderErr with
  | Ok _ => []
  | Err x => [x]
  end.

(** Instances on which [rendering] can be run: elements are markup,
    extensions wrap it. *)
Definition demoStrictMode (el : jsstring) : jsstring :=
  lit "<StrictMode>" ++ el ++ lit "</StrictMode>".

Definition demoProvider (el : jsstring) : Result jsstring :=
  Ok (lit "<Provider>" ++ el ++ lit "</Provider>").

Definition demoBrokenExtension (_ : jsstring) : Result jsstring :=
  Err (ThrownTypeError (lit "extension failed")).

Definition demoQuietCallback : Callback := fun _ => Ok tt.

Definition demoThrowingCallback : Callback :=
  fun _ => Err (ThrownTypeError (lit "callback failed")).

Definition demoOptions (custom : option (jsstring -> Result unit))
  (extensions : option (list (jsstring -> Result jsstring))) (strict : bool)
  : Options jsstring unit :=
  {| customRender := custom;
     extendRender := extensions;
     useStrictMode := strict;
     rendererCallback := Some [demoThrowingCallback; demoQuietCallback];
     renderMode := None |}.

Definition demoHydrationError : Thrown :=
  ThrownTypeError (lit "hydration failed").

(** Renderers: one that calls back once and returns, one that throws at
    once, one that calls back and then throws. *)
Definition demoRenderer (_ : Params jsstring unit unit) : RendererRun :=
  {| callbacksDuringCall := 1; failure := None |}.

Definition demoFailingRenderer (_ : Params jsstring unit unit) : RendererRun :=
  {| callbacksDuringCall := 0; failure := Some demoHydrationError |}.

Definition demoLateFailingRenderer (_ : Params jsstring unit unit)
  : RendererRun :=
  {| callbacksDuringCall := 1; failure := Some demoHydrationError |}.

End Client.

(** ** The settings of the child-app config manager

    [packages/cli/src/api/start/providers/child-app/shared.ts]: the object
    literal given to [createConfigManager].  An object is the list of its
    properties; a key that is absent reads as [undefined]. *)

Module Cli.

Definition Obj : Type := list (jsstring * JsValue).

(** [o[key]] *)
Fixpoint getProp (o : Obj) (key : jsstring) : JsValue :=
  match o with
  | [] => JsUndefined
  | (k, v) :: rest => if jsstring_eqb k key then v else getProp rest key
  end.

(** A property of an object literal after a spread: it replaces the
    property of that name, or is added after the others. *)
Fixpoint setProp (key : jsstring) (value : JsValue) (o : Obj) : Obj :=
  match o with
  | [] => [(key, value)]
  | (k, v) :: rest =>
      if jsstring_eqb k key then (key, value) :: rest
      else (k, v) :: setProp key value rest
  end.

(** [{ ...parameters, appEnv: parameters.env, env: 'development',
       port: portManager.port }] *)
Definition configManagerSettings (parameters : Obj) (port : JsValue) : Obj :=
  setProp (lit "port") port
    (setProp (lit "env") (JsStr (lit "development"))
       (setProp (lit "appEnv") (getProp parameters (lit "env")) parameters)).

End Cli.

(** * Properties *)

Unset Implicit Arguments.

(** ** Strings *)

Lemma startsWith_app (x q : jsstring) : startsWith x (x ++ q) = true.
Proof.
  induction x as [|c x IH]; simpl; [reflexivity|].
  now rewrite N.eqb_refl, IH.
Qed.

Lemma startsWith_split (p s : jsstring) :
  startsWith p s = true -> s = p ++ skipn (List.length p) s.
Proof.
  revert s; induction p as [|c p IH]; intros s H; simpl in *.
  - reflexivity.
  - destruct s as [|d s]; [discriminate|].
    apply andb_true_iff in H as [Hc Hp].
    apply N.eqb_eq in Hc; subst d.
    simpl. f_equal. now apply IH.
Qed.

Lemma splitFirst_sound (pat s before after : jsstring) :
  splitFirst pat s = Some (before, after) -> s = before ++ pat ++ after.
Proof.
  revert before after; induction s as [|c s IH]; intros before after H.
  - simpl in H.
    destruct (startsWith pat []) eqn:E; [|discriminate].
    injection H as <- <-.
    now apply startsWith_split in E.
  - cbn [splitFirst] in H.
    destruct (startsWith pat (c :: s)) eqn:E.
    + injection H as <- <-.
      now apply startsWith_split in E.
    + destruct (splitFirst pat s) as [[b a]|] eqn:Es; [|discriminate].
      injection H as <- <-.
      simpl. f_equal. now apply IH.
Qed.

Lemma includes_app (x p q : jsstring) : includes x (p ++ x ++ q) = true.
Proof.
  unfold includes.
  induction p as [|c p IH].
  - simpl app.
    destruct (x ++ q) eqn:E; cbn [splitFirst];
      rewrite <- E, startsWith_app; reflexivity.
  - simpl app. cbn [splitFirst].
    destruct (startsWith x (c :: p ++ x ++ q)); [reflexivity|].
    destruct (splitFirst x (p ++ x ++ q)) as [[b a]|]; [reflexivity|].
    discriminate.
Qed.

Lemma getSubstitution_noDollar (matched before after r : jsstring) :
  noDollar r = true -> getSubstitution matched before after r = r.
Proof.
  unfold noDollar.
  induction r as [|c r IH]; intros H; [reflexivity|].
  cbn [existsb] in H. rewrite negb_orb in H.
  apply andb_true_iff in H as [Hc Hr].
  cbn [getSubstitution].
  rewrite N.eqb_sym in Hc.
  apply negb_true_iff in Hc. rewrite Hc.
  f_equal. now apply IH.
Qed.

(** With the pattern present and no [$] in the replacement, [replace]
    splices the replacement text in as it is. *)
Lemma replace_splices (s pat r : jsstring) :
  includes pat s = true ->
  noDollar r = true ->
  exists before after,
    s = before ++ pat ++ after /\ replace s pat r = before ++ r ++ after.
Proof.
  unfold includes, replace. intros Hin Hr.
  destruct (splitFirst pat s) as [[b a]|] eqn:E; [|discriminate].
  exists b, a. split.
  - now apply splitFirst_sound.
  - now rewrite getSubstitution_noDollar.
Qed.

Lemma replace_absent (s pat r : jsstring) :
  includes pat s = false -> replace s pat r = s.
Proof.
  unfold includes, replace.
  destruct (splitFirst pat s) as [[b a]|]; [discriminate|reflexivity].
Qed.

(** ** Traces *)

Lemma logsOf_app (t1 t2 : list Event) :
  logsOf (t1 ++ t2) = logsOf t1 ++ logsOf t2.
Proof. apply flat_map_app. Qed.

Lemma handlerOpsOf_app (t1 t2 : list Event) :
  handlerOpsOf (t1 ++ t2) = handlerOpsOf t1 ++ handlerOpsOf t2.
Proof. apply flat_map_app. Qed.

Lemma callsOf_app (t1 t2 : list Event) :
  callsOf (t1 ++ t2) = callsOf t1 ++ callsOf t2.
Proof. apply flat_map_app. Qed.

Lemma invokedIn_app (t1 t2 : list Event) :
  invokedIn (t1 ++ t2) = invokedIn t1 ++ invokedIn t2.
Proof. apply flat_map_app. Qed.

Lemma replyOpsOf_app (t1 t2 : list Event) :
  replyOpsOf (t1 ++ t2) = replyOpsOf t1 ++ replyOpsOf t2.
Proof. apply flat_map_app. Qed.

Lemma replyAfter_app (t1 t2 : list Event) :
  replyAfter (t1 ++ t2) = fold_left applyOp (replyOpsOf t2) (replyAfter t1).
Proof.
  unfold replyAfter. now rewrite replyOpsOf_app, fold_left_app.
Qed.

Lemma hooksOnly_nil : hooksOnly [].
Proof. now repeat split. Qed.

Lemma hooksOnly_app (t1 t2 : list Event) :
  hooksOnly t1 -> hooksOnly t2 -> hooksOnly (t1 ++ t2).
Proof.
  intros (L1 & O1 & C1) (L2 & O2 & C2).
  unfold hooksOnly.
  now rewrite logsOf_app, handlerOpsOf_app, callsOf_app, L1, L2, O1, O2, C1, C2.
Qed.

Lemma hooksOnly_byHook (ops : list ReplyOp) : hooksOnly (List.map ByHook ops).
Proof.
  induction ops as [|op ops IH]; [apply hooksOnly_nil|].
  destruct IH as (L & O & C).
  now repeat split.
Qed.

Lemma hooksOnly_hookTrace error request h : hooksOnly (hookTrace error request h).
Proof.
  unfold hookTrace.
  destruct (hooksOnly_byHook (replyOps (h error request))) as (L & O & C).
  now repeat split.
Qed.

Lemma invokedIn_byHook (ops : list ReplyOp) : invokedIn (List.map ByHook ops) = [].
Proof. induction ops; simpl; auto. Qed.

Lemma invokedIn_hookTraces error request (hs : list Hook) :
  invokedIn (flat_map (hookTrace error request) hs) = hs.
Proof.
  induction hs as [|h hs IH]; [reflexivity|].
  cbn [flat_map]. rewrite invokedIn_app, IH.
  unfold hookTrace. simpl. now rewrite invokedIn_byHook.
Qed.

Lemma truthy_not_nil (v : JsValue) : truthy v = true -> isNil v = false.
Proof. destruct v; simpl; congruence. Qed.

Lemma logsOf_cons (e : Event) (t : list Event) :
  logsOf (e :: t) =
    match e with Log l r => [(l, r)] | _ => [] end ++ logsOf t.
Proof. reflexivity. Qed.

Lemma callsOf_cons (e : Event) (t : list Event) :
  callsOf (e :: t) = match e with Call c => [c] | _ => [] end ++ callsOf t.
Proof. reflexivity. Qed.

Lemma invokedIn_cons (e : Event) (t : list Event) :
  invokedIn (e :: t) =
    match e with Invoke h => [h] | _ => [] end ++ invokedIn t.
Proof. reflexivity. Qed.

Lemma redirectedByHandler_app (t1 t2 : list Event) :
  redirectedByHandler (t1 ++ t2) =
    redirectedByHandler t1 || redirectedByHandler t2.
Proof.
  unfold redirectedByHandler. now rewrite handlerOpsOf_app, existsb_app.
Qed.

Lemma redirectedByHandler_cons (e : Event) (t : list Event) :
  redirectedByHandler (e :: t) =
    match e with Reply op => isRedirect op | _ => false end
    || redirectedByHandler t.
Proof. destruct e; reflexivity. Qed.

Lemma hooksOnly_not_redirected (t : list Event) :
  hooksOnly t -> redirectedByHandler t = false.
Proof. intros (_ & H & _). unfold redirectedByHandler. now rewrite H. Qed.

Lemma jsstring_eqb_refl (a : jsstring) : jsstring_eqb a a = true.
Proof. unfold jsstring_eqb. now destruct (list_eq_dec N.eq_dec a a). Qed.

Lemma jsstring_eqb_eq (a b : jsstring) : jsstring_eqb a b = true -> a = b.
Proof.
  unfold jsstring_eqb. now destruct (list_eq_dec N.eq_dec a b).
Qed.

Lemma getHeader_setHeader_same (key : jsstring) (value : HeaderValue)
  (hs : list (jsstring * HeaderValue)) :
  getHeader key (setHeader key value hs) = Some value.
Proof.
  induction hs as [|[k v] hs IH]; simpl.
  - now rewrite jsstring_eqb_refl.
  - destruct (jsstring_eqb k key) eqn:E; simpl.
    + now rewrite jsstring_eqb_refl.
    + now rewrite E.
Qed.

Lemma getHeader_setHeader_other (key other : jsstring) (value : HeaderValue)
  (hs : list (jsstring * HeaderValue)) :
  jsstring_eqb other key = false ->
  getHeader key (setHeader other value hs) = getHeader key hs.
Proof.
  intros Hne.
  induction hs as [|[k v] hs IH]; simpl.
  - now rewrite Hne.
  - destruct (jsstring_eqb k other) eqn:E; simpl.
    + apply jsstring_eqb_eq in E; subst k. now rewrite Hne.
    + destruct (jsstring_eqb k key); [reflexivity | exact IH].
Qed.

Lemma replyOpsOf_cons (e : Event) (t : list Event) :
  replyOpsOf (e :: t) =
    match e with ByHook op | Reply op => [op] | _ => [] end ++ replyOpsOf t.
Proof. reflexivity. Qed.

Lemma includes_at (x p q s : jsstring) :
  s = p ++ x ++ q -> includes x s = true.
Proof. intros ->. apply includes_app. Qed.

(** ** The chain runner *)

Section Chain.

Variable error : CaughtError.
Variable request : Request.

Lemma invoke_ok (h : Hook) (v : JsValue) :
  settled (h error request) = Ok v ->
  invoke error request h = (hookTrace error request h, Normal v).
Proof.
  intros H. unfold invoke, hookTrace. rewrite H. simpl.
  now rewrite app_nil_r.
Qed.

Lemma invoke_err (h : Hook) (t : Thrown) :
  settled (h error request) = Err t ->
  invoke error request h = (hookTrace error request h, Throw t).
Proof.
  intros H. unfold invoke, hookTrace. rewrite H. simpl.
  now rewrite app_nil_r.
Qed.

(** Hooks that resolve with falsy values are all run, in order. *)
Lemma runHandlersLoop_declined (pre rest : list Hook) :
  forallb (declines error request) pre = true ->
  runHandlersLoop error request (pre ++ rest) =
    (let (t, c) := runHandlersLoop error request rest in
     (flat_map (hookTrace error request) pre ++ t, c)).
Proof.
  induction pre as [|h pre IH]; intros H.
  - simpl. now destruct (runHandlersLoop error request rest).
  - cbn [forallb] in H. apply andb_true_iff in H as [Hh Hpre].
    unfold declines in Hh.
    destruct (settled (h error request)) as [v|t] eqn:E; [|discriminate].
    apply negb_true_iff in Hh.
    simpl app. cbn [runHandlersLoop].
    rewrite (invoke_ok _ _ E). cbn [bind]. rewrite Hh, (IH Hpre).
    destruct (runHandlersLoop error request rest) as [t c].
    cbn [flat_map]. now rewrite app_assoc.
Qed.

Lemma runHandlersLoop_stops (pre post : list Hook) (h : Hook) (v : JsValue) :
  forallb (declines error request) pre = true ->
  settled (h error request) = Ok v ->
  truthy v = true ->
  runHandlersLoop error request (pre ++ h :: post) =
    (flat_map (hookTrace error request) (pre ++ [h]), Return v).
Proof.
  intros Hpre Hh Hv.
  rewrite (runHandlersLoop_declined _ _ Hpre).
  cbn [runHandlersLoop]. rewrite (invoke_ok _ _ Hh). cbn [bind]. rewrite Hv.
  simpl. rewrite flat_map_app. simpl. now rewrite !app_nil_r.
Qed.

Lemma runHandlersLoop_exhausted (hs : list Hook) :
  forallb (declines error request) hs = true ->
  runHandlersLoop error request hs =
    (flat_map (hookTrace error request) hs, Normal tt).
Proof.
  intros H.
  rewrite <- (app_nil_r hs) at 1.
  rewrite (runHandlersLoop_declined _ _ H). simpl. now rewrite app_nil_r.
Qed.

(** The loop acts only through hooks, and leaves by [return] with a
    truthy value, by a [throw] of a hook, or at its end. *)
Lemma runHandlersLoop_cases (hs : list Hook) :
  exists t c,
    runHandlersLoop error request hs = (t, c) /\ hooksOnly t /\
    (c = Normal tt \/ (exists v, c = Return v /\ truthy v = true)
     \/ exists e, c = Throw e).
Proof.
  induction hs as [|h hs (t & c & E & Ht & Hc)].
  - exists [], (Normal tt). repeat split; auto.
  - cbn [runHandlersLoop].
    destruct (settled (h error request)) as [v|e] eqn:Eh.
    + rewrite (invoke_ok _ _ Eh). cbn [bind].
      destruct (truthy v) eqn:Ev.
      * exists (hookTrace error request h ++ []), (Return v).
        split; [reflexivity|]. split.
        -- apply hooksOnly_app;
             [apply hooksOnly_hookTrace | apply hooksOnly_nil].
        -- right; left. now exists v.
      * rewrite E.
        exists (hookTrace error request h ++ t), c.
        split; [reflexivity|]. split; [|exact Hc].
        apply hooksOnly_app; [apply hooksOnly_hookTrace | exact Ht].
    + rewrite (invoke_err _ _ Eh). cbn [bind].
      exists (hookTrace error request h), (Throw e).
      split; [reflexivity|]. split; [apply hooksOnly_hookTrace|].
      right; right. now exists e.
Qed.

(** The promise of [runHandlers] resolves with [undefined] or with a
    truthy hook result, or is rejected by a hook. *)
Lemma runHandlers_cases (handlers : option (list Hook)) :
  exists t o,
    runHandlers error request handlers = (t, o) /\ hooksOnly t /\
    (o = Resolved JsUndefined \/ (exists v, o = Resolved v /\ truthy v = true)
     \/ exists e, o = Rejected e).
Proof.
  unfold runHandlers.
  destruct handlers as [hs|].
  - destruct (runHandlersLoop_cases hs)
      as (t & c & E & Ht & [-> | [(v & -> & Hv) | (e & ->)]]);
      rewrite E; simpl; exists t; eexists; (split; [reflexivity|]);
      (split; [exact Ht|]).
    + now left.
    + right; left. now exists v.
    + right; right. now exists e.
  - exists [], (Resolved JsUndefined). simpl.
    split; [reflexivity|]. split; [apply hooksOnly_nil | now left].
Qed.

End Chain.

(** ** The paths through the handler *)

Section Paths.

Variables Stats Extractor ParsedUrl Component Element : Type.
Variables isRedirectFoundError isNotFoundError isHttpError
  : CaughtError -> bool.
Variable toLowerCase : jsstring -> jsstring.
Variable parse : jsstring -> Result ParsedUrl.
Variable createElement : Component -> Props ParsedUrl -> Element.
Variable renderToString : Element -> Result jsstring.
Variable safeStringify : Json ParsedUrl -> Result jsstring.
Variable newChunkExtractor : Stats -> list jsstring -> Result Extractor.
Variables getStyleTags getScriptTags : Extractor -> Result jsstring.
Variable requireRootErrorBoundary : Result Component.
Variable deps : Deps Stats.
Variable error : CaughtError.
Variable request : Request.

Local Abbreviation handler :=
  (errorHandler isRedirectFoundError isNotFoundError isHttpError toLowerCase
     parse createElement renderToString safeStringify newChunkExtractor
     getStyleTags getScriptTags requireRootErrorBoundary deps error request).
Local Abbreviation classified :=
  (classify isNotFoundError isHttpError toLowerCase error).
Local Abbreviation collected boundary httpStatus :=
  (collectFallbackParts parse createElement renderToString safeStringify
     newChunkExtractor getStyleTags getScriptTags deps error boundary
     (requestInfoOf request) httpStatus).
Local Abbreviation classifiedLog c :=
  (Log (logLevel c)
     (classifiedRecord requireRootErrorBoundary error c
        (requestInfoOf request))).
Local Abbreviation before := (runHandlers error request (beforeError deps)).
Local Abbreviation after := (runHandlers error request (afterError deps)).

Lemma classify_cases :
  (exists c, classified = ([], Normal c)) \/
  (code error = None /\ geq (statusCode error) 400 = true /\
   classified = ([], Throw (ThrownTypeError undefinedToLowerCase))).
Proof.
  unfold classify, codeToLowerCase.
  destruct (isNotFoundError error); [left; eexists; reflexivity|].
  destruct (isHttpError error).
  - destruct (geq (httpStatus error) 500); left; eexists; reflexivity.
  - destruct (geq (statusCode error) 500) eqn:E5.
    + destruct (code error).
      * left; eexists; reflexivity.
      * right; repeat split.
        destruct (statusCode error) as [s|]; simpl in *; [|discriminate].
        apply Z.leb_le in E5. apply Z.leb_le. lia.
    + destruct (geq (statusCode error) 400) eqn:E4.
      * destruct (code error).
        -- left; eexists; reflexivity.
        -- right; repeat split.
      * left; eexists; reflexivity.
Qed.

Lemma classify_vocabulary (t : list Event) (c : Classification) :
  classified = (t, Normal c) -> In (logEvent c) eventVocabulary.
Proof.
  unfold classify, codeToLowerCase, eventVocabulary.
  repeat match goal with
         | |- context [if ?b then _ else _] => destruct b
         | |- context [match code error with _ => _ end] =>
             destruct (code error)
         end;
    simpl; intros H; inversion H; subst; simpl;
    repeat ((left; reflexivity) || right).
Qed.

Lemma before_rejected (tb : list Event) (e : Thrown) :
  before = (tb, Rejected e) -> handler = (tb, Rejected e).
Proof.
  intros Hb. unfold errorHandler, handlerBody. rewrite Hb. reflexivity.
Qed.

Lemma before_result (tb : list Event) (v : JsValue) :
  before = (tb, Resolved v) -> isNil v = false ->
  handler = (tb, Resolved v).
Proof.
  intros Hb Hv. unfold errorHandler, handlerBody. rewrite Hb.
  cbn [await bind]. rewrite Hv. simpl. now rewrite app_nil_r.
Qed.

Lemma redirect_path (tb : list Event) (v : JsValue) :
  before = (tb, Resolved v) -> isNil v = true ->
  isRedirectFoundError error = true ->
  handler =
    (tb ++ [Log level_info (redirectRecord error (requestInfoOf request));
            Reply (Header (lit "cache-control") (HeaderString noCache));
            Reply (Redirect (orElse (httpStatus error) 307) (nextUrl error))],
     Resolved JsUndefined).
Proof.
  intros Hb Hv Hr. unfold errorHandler, handlerBody. rewrite Hb.
  cbn [await bind]. rewrite Hv, Hr. reflexivity.
Qed.

Lemma classify_throws (tb : list Event) (v : JsValue) (t : Thrown) :
  before = (tb, Resolved v) -> isNil v = true ->
  isRedirectFoundError error = false ->
  classified = ([], Throw t) ->
  handler = (tb, Rejected t).
Proof.
  intros Hb Hv Hr Hc. unfold errorHandler, handlerBody. rewrite Hb.
  cbn [await bind]. rewrite Hv, Hr. cbn [negb]. rewrite Hc.
  simpl. now rewrite app_nil_r.
Qed.

Lemma after_rejected (tb ta : list Event) (v : JsValue) (c : Classification)
  (e : Thrown) :
  before = (tb, Resolved v) -> isNil v = true ->
  isRedirectFoundError error = false ->
  classified = ([], Normal c) ->
  after = (ta, Rejected e) ->
  handler = (tb ++ classifiedLog c :: ta, Rejected e).
Proof.
  intros Hb Hv Hr Hc Ha. unfold errorHandler, handlerBody. rewrite Hb.
  cbn [await bind]. rewrite Hv, Hr. cbn [negb]. rewrite Hc.
  cbn [bind logWith emit]. rewrite Ha. reflexivity.
Qed.

Lemma after_result (tb ta : list Event) (v w : JsValue) (c : Classification) :
  before = (tb, Resolved v) -> isNil v = true ->
  isRedirectFoundError error = false ->
  classified = ([], Normal c) ->
  after = (ta, Resolved w) -> isNil w = false ->
  handler = (tb ++ classifiedLog c :: ta, Resolved w).
Proof.
  intros Hb Hv Hr Hc Ha Hw. unfold errorHandler, handlerBody. rewrite Hb.
  cbn [await bind]. rewrite Hv, Hr. cbn [negb]. rewrite Hc.
  cbn [bind logWith emit]. rewrite Ha. cbn [await bind]. rewrite Hw.
  simpl. now rewrite app_nil_r.
Qed.

Lemma no_boundary_path (tb ta : list Event) (v w : JsValue)
  (c : Classification) :
  before = (tb, Resolved v) -> isNil v = true ->
  isRedirectFoundError error = false ->
  classified = ([], Normal c) ->
  after = (ta, Resolved w) -> isNil w = true ->
  RootErrorBoundary requireRootErrorBoundary = None ->
  handler =
    (tb ++ classifiedLog c :: ta ++ [Reply (Status (cls_httpStatus c))],
     Rejected (ThrownError error)).
Proof.
  intros Hb Hv Hr Hc Ha Hw Hn. unfold errorHandler, handlerBody. rewrite Hb.
  cbn [await bind]. rewrite Hv, Hr. cbn [negb]. rewrite Hc.
  cbn [bind logWith emit]. rewrite Ha. cbn [await bind]. rewrite Hw, Hn.
  reflexivity.
Qed.

(** A successful rendering ends the handler with the body. *)
Lemma fallback_rendered (tb ta tf : list Event) (v w : JsValue)
  (c : Classification) (boundary : Component) (p : FallbackParts) :
  before = (tb, Resolved v) -> isNil v = true ->
  isRedirectFoundError error = false ->
  classified = ([], Normal c) ->
  after = (ta, Resolved w) -> isNil w = true ->
  RootErrorBoundary requireRootErrorBoundary = Some boundary ->
  collected boundary (cls_httpStatus c) = (tf, Normal p) ->
  handler =
    (tb ++ classifiedLog c :: ta ++ Reply (Status (cls_httpStatus c)) :: tf
        ++ [Log level_info renderedRecord;
            Reply (Header (lit "Content-Type")
                     (HeaderString (lit "text/html; charset=utf-8")));
            Reply (Header (lit "Content-Length")
                     (HeaderNumber (byteLength (fallbackBody p))));
            Reply (Header (lit "Cache-Control") (HeaderString noCache))],
     Resolved (JsStr (fallbackBody p))).
Proof.
  intros Hb Hv Hr Hc Ha Hw Hn Hf. unfold errorHandler, handlerBody. rewrite Hb.
  cbn [await bind]. rewrite Hv, Hr. cbn [negb]. rewrite Hc.
  cbn [bind logWith emit]. rewrite Ha. cbn [await bind]. rewrite Hw, Hn.
  unfold renderFallback. rewrite Hf. reflexivity.
Qed.

(** A failed rendering is logged, and the handler rethrows. *)
Lemma fallback_failed (tb ta tf : list Event) (v w : JsValue)
  (c : Classification) (boundary : Component) (e : Thrown) :
  before = (tb, Resolved v) -> isNil v = true ->
  isRedirectFoundError error = false ->
  classified = ([], Normal c) ->
  after = (ta, Resolved w) -> isNil w = true ->
  RootErrorBoundary requireRootErrorBoundary = Some boundary ->
  collected boundary (cls_httpStatus c) = (tf, Throw e) ->
  handler =
    (tb ++ classifiedLog c :: ta ++ Reply (Status (cls_httpStatus c)) :: tf
        ++ [Log level_warn (failedRecord e)],
     Rejected (ThrownError error)).
Proof.
  intros Hb Hv Hr Hc Ha Hw Hn Hf. unfold errorHandler, handlerBody. rewrite Hb.
  cbn [await bind]. rewrite Hv, Hr. cbn [negb]. rewrite Hc.
  cbn [bind logWith emit]. rewrite Ha. cbn [await bind]. rewrite Hw, Hn.
  unfold renderFallback. rewrite Hf. simpl. now rewrite app_nil_r.
Qed.

(** The calls of the [try] block leave no log record and do not touch
    [reply]; they end normally or by a [throw]. *)
Lemma collect_cases (boundary : Component) (st : Z) :
  exists tf,
    logsOf tf = [] /\ replyOpsOf tf = [] /\ handlerOpsOf tf = [] /\
    hd_error tf = Some (Call FetchWebpackStats) /\
    ((exists p, collected boundary st = (tf, Normal p)) \/
     (exists e, collected boundary st = (tf, Throw e))).
Proof.
  unfold collectFallbackParts, call.
  repeat match goal with
         | |- context [lift ?r] => destruct r; cbn [lift bind emit ret throw app]
         end;
    eexists; (split; [|split; [|split; [|split]]]);
    try (left; eexists; reflexivity); try (right; eexists; reflexivity);
    reflexivity.
Qed.

(** Splits an invocation into its paths and rewrites the handler to the
    run of each one. *)
Ltac handler_cases :=
  let tb := fresh "tb" in let Hb := fresh "Hb" in let Htb := fresh "Htb" in
  let ta := fresh "ta" in let Ha := fresh "Ha" in let Hta := fresh "Hta" in
  let c := fresh "c" in let Hc := fresh "Hc" in
  let Hr := fresh "Hr" in let Hn := fresh "Hn" in
  let v := fresh "v" in let Hv := fresh "Hv" in
  let w := fresh "w" in let Hw := fresh "Hw" in
  let e := fresh "e" in let tf := fresh "tf" in let Hf := fresh "Hf" in
  let Htf := fresh "Htf" in let p := fresh "p" in
  let boundary := fresh "boundary" in let ob := fresh "ob" in
  let oa := fresh "oa" in
  destruct (runHandlers_cases error request (beforeError deps))
    as (tb & ob & Hb & Htb & [-> | [(v & -> & Hv) | (e & ->)]]);
  [ destruct (isRedirectFoundError error) eqn:Hr;
    [ rewrite (redirect_path tb JsUndefined Hb eq_refl Hr)
    | destruct classify_cases as [(c & Hc) | (_ & _ & Hc)];
      [ destruct (runHandlers_cases error request (afterError deps))
          as (ta & oa & Ha & Hta & [-> | [(w & -> & Hw) | (e & ->)]]);
        [ destruct (RootErrorBoundary requireRootErrorBoundary)
            as [boundary|] eqn:Hn;
          [ destruct (collect_cases boundary (cls_httpStatus c))
              as (tf & Htf & ? & ? & ? & [(p & Hf) | (e & Hf)]);
            [ rewrite (fallback_rendered tb ta tf JsUndefined JsUndefined c
                         boundary p Hb eq_refl Hr Hc Ha eq_refl Hn Hf)
            | rewrite (fallback_failed tb ta tf JsUndefined JsUndefined c
                         boundary e Hb eq_refl Hr Hc Ha eq_refl Hn Hf) ]
          | rewrite (no_boundary_path tb ta JsUndefined JsUndefined c
                       Hb eq_refl Hr Hc Ha eq_refl Hn) ]
        | rewrite (after_result tb ta JsUndefined w c
                     Hb eq_refl Hr Hc Ha (truthy_not_nil w Hw))
        | rewrite (after_rejected tb ta JsUndefined c e
                     Hb eq_refl Hr Hc Ha) ]
      | rewrite (classify_throws tb JsUndefined _ Hb eq_refl Hr Hc) ] ]
  | rewrite (before_result tb v Hb (truthy_not_nil v Hv))
  | rewrite (before_rejected tb e Hb) ].

(** ** C1 *)

(** C1. Whatever the error, the request and the hooks, an invocation of
    the handler ends in exactly one of two ways: its promise resolves
    with a response (a value that is not nil, or after the handler has
    issued a redirect), or it is rejected with an exception.  It never
    resolves with nothing, and never both responds and throws. *)
Theorem handler_responds_or_rethrows :
  xorb (returnsResponse handler) (rethrows handler) = true.
Proof.
  handler_cases; unfold returnsResponse, rethrows;
    repeat rewrite ?redirectedByHandler_app, ?redirectedByHandler_cons;
    repeat match goal with
           | H : hooksOnly ?t |- _ =>
               rewrite (hooksOnly_not_redirected t H); clear H
           | H : handlerOpsOf ?t = [] |- _ =>
               unfold redirectedByHandler at 1; rewrite H; clear H
           end.
  all: try reflexivity.
  all: try (rewrite (truthy_not_nil _ ltac:(eassumption)); reflexivity).
Qed.

(** ** C2 *)

Ltac in_vocabulary :=
  unfold eventVocabulary; cbn [In];
  repeat ((left; reflexivity) || right).

(** C2, as the code has it.  Every log record the handler emits carries
    one of the seven event names of the source: redirect-found-error,
    not-found-error, http-error, send-server-error, fastify-error-4xx,
    render-root-error-boundary, failed-root-error-boundary. *)
Theorem handler_events_in_vocabulary :
  Forall (fun lr => In (event (snd lr)) eventVocabulary)
    (logsOf (fst handler)).
Proof.
  handler_cases; cbn [fst];
    repeat rewrite ?logsOf_app, ?logsOf_cons;
    repeat match goal with
           | H : hooksOnly ?t |- _ =>
               let L := fresh in destruct H as (L & _ & _); rewrite L
           | H : logsOf ?t = [] |- _ => rewrite H; clear H
           end;
    cbn [app];
    repeat (apply Forall_cons || apply Forall_nil);
    cbn [snd event classifiedRecord redirectRecord renderedRecord
           failedRecord];
    try (eapply classify_vocabulary; eassumption);
    in_vocabulary.
Qed.

(** ** C3 *)

(** C3, as the code has it.  For a hook list [pre ++ h :: post] in which
    the hooks of [pre] resolve with falsy values (undefined, null, false,
    0, the empty string) and [h] is the first to resolve with a truthy
    value [v], the chain runner invokes [pre] and then [h], in
    registration order, resolves with [v] and invokes no hook of
    [post]. *)
Theorem chain_stops_at_first_truthy
  (pre post : list Hook) (h : Hook) (v : JsValue) :
  forallb (declines error request) pre = true ->
  settled (h error request) = Ok v ->
  truthy v = true ->
  runHandlers error request (Some (pre ++ h :: post)) =
    (flat_map (hookTrace error request) (pre ++ [h]), Resolved v) /\
  invokedIn (fst (runHandlers error request (Some (pre ++ h :: post)))) =
    pre ++ [h].
Proof.
  intros Hpre Hh Hv.
  assert (E : runHandlers error request (Some (pre ++ h :: post)) =
              (flat_map (hookTrace error request) (pre ++ [h]), Resolved v)).
  { unfold runHandlers.
    now rewrite (runHandlersLoop_stops error request pre post h v Hpre Hh Hv). }
  split; [exact E|].
  rewrite E. cbn [fst]. apply invokedIn_hookTraces.
Qed.

(** ** C4 *)

(** C4.  For an error that is no redirect, not-found or domain HTTP
    error, with [statusCode >= 400] and no [code]: building the log
    message throws a [TypeError].  No log record is emitted, whatever the
    before-hooks do; and when the before-hooks leave the error to the
    handler, the handler is rejected with that [TypeError], which is not
    the caught error. *)
Theorem undefined_code_throws_type_error (s : Z) :
  isRedirectFoundError error = false ->
  isNotFoundError error = false ->
  isHttpError error = false ->
  statusCode error = Some s -> (400 <= s)%Z ->
  code error = None ->
  classified = ([], Throw (ThrownTypeError undefinedToLowerCase)) /\
  logsOf (fst handler) = [] /\
  (forall tb, before = (tb, Resolved JsUndefined) ->
     handler = (tb, Rejected (ThrownTypeError undefinedToLowerCase)) /\
     snd handler <> Rejected (ThrownError error)).
Proof.
  intros Hr Hnf Hh Hs Hge Hcode.
  assert (Hc : classified =
               ([], Throw (ThrownTypeError undefinedToLowerCase))).
  { unfold classify, codeToLowerCase. rewrite Hnf, Hh, Hs, Hcode.
    cbn [geq].
    destruct (500 <=? s)%Z; [reflexivity|].
    assert (E : (400 <=? s)%Z = true) by now apply Z.leb_le.
    now rewrite E. }
  split; [exact Hc|]. split.
  - destruct (runHandlers_cases error request (beforeError deps))
      as (tb & ob & Hb & (Hl & _) & [-> | [(v & -> & Hv) | (e & ->)]]).
    + now rewrite (classify_throws tb JsUndefined _ Hb eq_refl Hr Hc).
    + now rewrite (before_result tb v Hb (truthy_not_nil v Hv)).
    + now rewrite (before_rejected tb e Hb).
  - intros tb Hb.
    rewrite (classify_throws tb JsUndefined _ Hb eq_refl Hr Hc).
    split; [reflexivity | discriminate].
Qed.

(** ** C5 *)

(** C5, as the code has it.  When the rendering of the boundary is
    attempted and one of its steps throws [e], the last thing the handler
    does is to log a warning with event failed-root-error-boundary that
    carries [e]; it is then rejected with the caught error itself. *)
Theorem failed_fallback_rethrows_original
  (tb ta tf : list Event) (c : Classification) (boundary : Component)
  (e : Thrown) :
  before = (tb, Resolved JsUndefined) ->
  isRedirectFoundError error = false ->
  classified = ([], Normal c) ->
  after = (ta, Resolved JsUndefined) ->
  RootErrorBoundary requireRootErrorBoundary = Some boundary ->
  collected boundary (cls_httpStatus c) = (tf, Throw e) ->
  handler =
    ((tb ++ classifiedLog c :: ta ++ Reply (Status (cls_httpStatus c)) :: tf)
       ++ [Log level_warn (failedRecord e)],
     Rejected (ThrownError error)) /\
  event (failedRecord e) = lit "failed-root-error-boundary" /\
  log_error (failedRecord e) = Some e.
Proof.
  intros Hb Hr Hc Ha Hn Hf.
  rewrite (fallback_failed tb ta tf JsUndefined JsUndefined c boundary e
             Hb eq_refl Hr Hc Ha eq_refl Hn Hf).
  repeat split.
  f_equal. rewrite <- !app_assoc. cbn [app]. now rewrite <- !app_assoc.
Qed.

(** ** C6 *)

(** C6, as the code has it.  For an error that is neither a not-found
    nor a domain HTTP error, with [400 <= statusCode < 500] and a [code],
    the classification is level info with event fastify-error-4xx (and
    the status is the error's). *)
Theorem fastify_4xx_classification (s : Z) (symbol : jsstring) :
  isNotFoundError error = false ->
  isHttpError error = false ->
  statusCode error = Some s -> (400 <= s < 500)%Z ->
  code error = Some symbol ->
  exists c,
    classified = ([], Normal c) /\
    cls_httpStatus c = s /\
    logLevel c = level_info /\
    logEvent c = lit "fastify-error-4xx".
Proof.
  intros Hnf Hh Hs [Hlo Hhi] Hcode.
  unfold classify, codeToLowerCase. rewrite Hnf, Hh, Hs, Hcode.
  cbn [geq orElse].
  assert (E5 : (500 <=? s)%Z = false) by (apply Z.leb_gt; lia).
  assert (E4 : (400 <=? s)%Z = true) by (apply Z.leb_le; lia).
  assert (E0 : (s =? 0)%Z = false) by (apply Z.eqb_neq; lia).
  rewrite E5, E4, E0.
  eexists. split; [reflexivity|]. now repeat split.
Qed.

(** ** C7 *)

(** C7, at the input where the code departs from it.  A domain HTTP error
    that declares no status is classified with [httpStatus = 500], yet
    with level info and event http-error: the test is made on
    [error.httpStatus], not on the defaulted [httpStatus]. *)
Theorem http_error_without_status (c : Classification) :
  isNotFoundError error = false ->
  isHttpError error = true ->
  httpStatus error = None ->
  classified = ([], Normal c) ->
  cls_httpStatus c = 500%Z /\
  logLevel c = level_info /\
  logEvent c = lit "http-error".
Proof.
  intros Hnf Hh Hs. unfold classify. rewrite Hnf, Hh, Hs. cbn [geq orElse].
  intros H. inversion H; subst. now repeat split.
Qed.

(** A domain HTTP error that declares a status of 500 or more is
    classified with that status, level error and send-server-error. *)
Lemma http_error_5xx (s : Z) :
  isNotFoundError error = false ->
  isHttpError error = true ->
  httpStatus error = Some s -> (500 <= s)%Z ->
  exists c,
    classified = ([], Normal c) /\
    cls_httpStatus c = s /\
    logLevel c = level_error /\
    logEvent c = lit "send-server-error".
Proof.
  intros Hnf Hh Hs Hge. unfold classify. rewrite Hnf, Hh, Hs.
  cbn [geq orElse].
  assert (E5 : (500 <=? s)%Z = true) by (apply Z.leb_le; lia).
  assert (E0 : (s =? 0)%Z = false) by (apply Z.eqb_neq; lia).
  rewrite E5, E0.
  eexists. split; [reflexivity|]. now repeat split.
Qed.

(** ** C8 *)

(** C8.  For an error tagged as a redirect, when the before-hooks leave
    it to the handler: after the hooks the handler does three things and
    no more.  It logs once, at info, with event redirect-found-error;
    sets [cache-control] to the no-cache value; and redirects to
    [error.nextUrl] with the declared status, or 307 when none is
    declared.  Its promise then resolves.  No classified record is
    logged, no further hook is invoked, and no collaborator of the
    fallback rendering is called. *)
Theorem redirect_short_circuits (tb : list Event) :
  isRedirectFoundError error = true ->
  before = (tb, Resolved JsUndefined) ->
  handler =
    (tb ++ [Log level_info (redirectRecord error (requestInfoOf request));
            Reply (Header (lit "cache-control") (HeaderString noCache));
            Reply (Redirect (orElse (httpStatus error) 307) (nextUrl error))],
     Resolved JsUndefined) /\
  event (redirectRecord error (requestInfoOf request)) =
    lit "redirect-found-error" /\
  logsOf (fst handler) =
    [(level_info, redirectRecord error (requestInfoOf request))] /\
  invokedIn (fst handler) = invokedIn tb /\
  callsOf (fst handler) = [] /\
  getHeader (lit "cache-control") (sentHeaders (replyAfter (fst handler))) =
    Some (HeaderString noCache) /\
  redirectedTo (replyAfter (fst handler)) = Some (nextUrl error) /\
  sentStatus (replyAfter (fst handler)) =
    Some (orElse (httpStatus error) 307) /\
  (httpStatus error = None -> orElse (httpStatus error) 307 = 307%Z) /\
  (forall s, httpStatus error = Some s -> s <> 0%Z ->
             orElse (httpStatus error) 307 = s).
Proof.
  intros Hr Hb.
  destruct (runHandlers_cases error request (beforeError deps))
    as (tb' & ob & Hb' & (Hl & _ & Hcalls) & _).
  rewrite Hb in Hb'. injection Hb' as <- <-.
  rewrite (redirect_path tb JsUndefined Hb eq_refl Hr). cbn [fst].
  split; [reflexivity|]. split; [reflexivity|].
  split; [now rewrite logsOf_app, Hl|].
  split; [rewrite invokedIn_app; cbn; now rewrite app_nil_r|].
  split; [now rewrite callsOf_app, Hcalls|].
  rewrite replyAfter_app. cbn [replyOpsOf flat_map app fold_left applyOp
    sentHeaders redirectedTo sentStatus].
  split; [apply getHeader_setHeader_same|].
  split; [reflexivity|]. split; [reflexivity|].
  split.
  - now intros ->.
  - intros s -> Hs. cbn [orElse].
    apply Z.eqb_neq in Hs. now rewrite Hs.
Qed.

(** ** C9 *)

(** C9, as the code has it.  When the first before-hook to resolve with a
    truthy value resolves with [v] (the ones before it resolving with
    falsy values), the handler resolves with [v] itself, and the
    invocation consists of those hook calls only: nothing is logged, the
    handler performs no operation on [reply], no collaborator of the
    fallback rendering is called, and no other hook is invoked. *)
Theorem before_hook_result_is_returned
  (pre post : list Hook) (h : Hook) (v : JsValue) :
  beforeError deps = Some (pre ++ h :: post) ->
  forallb (declines error request) pre = true ->
  settled (h error request) = Ok v ->
  truthy v = true ->
  handler = (flat_map (hookTrace error request) (pre ++ [h]), Resolved v) /\
  logsOf (fst handler) = [] /\
  handlerOpsOf (fst handler) = [] /\
  callsOf (fst handler) = [] /\
  invokedIn (fst handler) = pre ++ [h].
Proof.
  intros Hdeps Hpre Hh Hv.
  assert (Hb : before =
               (flat_map (hookTrace error request) (pre ++ [h]), Resolved v)).
  { rewrite Hdeps. unfold runHandlers.
    now rewrite (runHandlersLoop_stops error request pre post h v Hpre Hh Hv). }
  destruct (runHandlers_cases error request (beforeError deps))
    as (tb' & ob & Hb' & (Hl & Hops & Hcalls) & _).
  rewrite Hb in Hb'. injection Hb' as <- <-.
  rewrite (before_result _ v Hb (truthy_not_nil v Hv)). cbn [fst].
  repeat split; try assumption.
  apply invokedIn_hookTraces.
Qed.

(** ** C10 *)

Lemma collected_parts (boundary : Component) (st : Z)
  (tf : list Event) (p : FallbackParts) :
  collected boundary st = (tf, Normal p) ->
  exists u,
    parse (url request) = Ok u /\
    renderToString
      (createElement boundary
         {| props_error :=
              {| status := st; serialized_message := message error;
                 serialized_stack := stack error |};
            props_url := u |}) = Ok (markup p) /\
    safeStringify (JsonUrl u) = Ok (serializedUrl p) /\
    safeStringify (JsonString (message error)) = Ok (serializedMessage p).
Proof.
  unfold collectFallbackParts, call, requestInfoOf. cbn [info_url].
  repeat match goal with
         | |- context [lift ?r] =>
             let E := fresh "E" in
             destruct r eqn:E; cbn [lift bind emit ret throw app]
         end;
    cbn [serialized_message]; intros H; inversion H; subst; clear H.
  cbn [markup serializedUrl serializedMessage].
  eexists. repeat split; eassumption.
Qed.

Lemma headInjection_starts_with_script (p : FallbackParts) :
  exists rest, headInjection p = serverStateScript p ++ rest.
Proof.
  unfold headInjection.
  assert (Hs : nonEmpty (serverStateScript p) = true) by reflexivity.
  cbn [filter]. rewrite Hs.
  destruct (nonEmpty (styleTags p)), (nonEmpty (scriptTags p));
    cbn [nonEmpty lit join]; eexists; reflexivity.
Qed.

(** C10, as the code has it.  When a boundary is configured and its
    rendering succeeds, the handler resolves with the body; the status of
    the reply is the classified [httpStatus], whatever the hooks have set
    before; the [Content-Length] header is the length in bytes of the
    UTF-8 encoding of that body.  The serialized message and the
    serialized URL are spliced in before the closing head tag: the body
    contains them when the rendered markup has such a tag and the
    spliced text has no [$] in it. *)
Theorem fallback_response
  (tb ta tf : list Event) (c : Classification) (boundary : Component)
  (p : FallbackParts) :
  before = (tb, Resolved JsUndefined) ->
  isRedirectFoundError error = false ->
  classified = ([], Normal c) ->
  after = (ta, Resolved JsUndefined) ->
  RootErrorBoundary requireRootErrorBoundary = Some boundary ->
  collected boundary (cls_httpStatus c) = (tf, Normal p) ->
  snd handler = Resolved (JsStr (fallbackBody p)) /\
  sentStatus (replyAfter (fst handler)) = Some (cls_httpStatus c) /\
  getHeader (lit "Content-Length") (sentHeaders (replyAfter (fst handler))) =
    Some (HeaderNumber (byteLength (fallbackBody p))) /\
  safeStringify (JsonString (message error)) = Ok (serializedMessage p) /\
  (exists u, parse (url request) = Ok u /\
             safeStringify (JsonUrl u) = Ok (serializedUrl p)) /\
  (includes (lit "</head>") (markup p) = true ->
   noDollar (headInjection p) = true ->
   includes (serializedMessage p) (fallbackBody p) = true /\
   includes (serializedUrl p) (fallbackBody p) = true).
Proof.
  intros Hb Hr Hc Ha Hn Hf.
  destruct (collect_cases boundary (cls_httpStatus c))
    as (tf' & _ & Hops & _ & _ & [(p' & Hf') | (e & Hf')]);
    rewrite Hf in Hf'; [|discriminate].
  injection Hf' as <- <-.
  destruct (collected_parts boundary (cls_httpStatus c) tf p Hf)
    as (u & Hu & _ & Hsu & Hsm).
  rewrite (fallback_rendered tb ta tf JsUndefined JsUndefined c boundary p
             Hb eq_refl Hr Hc Ha eq_refl Hn Hf).
  cbn [fst snd].
  split; [reflexivity|].
  unfold replyAfter.
  repeat rewrite ?replyOpsOf_app, ?replyOpsOf_cons.
  rewrite Hops. change (replyOpsOf []) with (@nil ReplyOp). cbn [app].
  rewrite !fold_left_app.
  cbn [fold_left applyOp sentStatus sentHeaders].
  split; [reflexivity|]. split.
  { rewrite getHeader_setHeader_other by reflexivity.
    apply getHeader_setHeader_same. }
  split; [exact Hsm|]. split; [now exists u|].
  intros Hhead Hdollar.
  unfold fallbackBody.
  destruct (replace_splices (markup p) (lit "</head>") (headInjection p)
              Hhead Hdollar) as (b & a & _ & ->).
  destruct (headInjection_starts_with_script p) as (rest & ->).
  unfold serverStateScript. split.
  - eapply includes_at
      with (p := b ++ lit "<script>"
                   ++ (lit "window.serverUrl = " ++ serializedUrl p ++ lit ";")
                   ++ lit "window.serverError = new Error(").
    rewrite <- !app_assoc. reflexivity.
  - eapply includes_at
      with (p := b ++ lit "<script>" ++ lit "window.serverUrl = ").
    rewrite <- !app_assoc. reflexivity.
Qed.

(** ** Further properties of the chain runner *)

Lemma runHandlersLoop_thrower (hs : list Hook) (t : list Event) (x : Thrown) :
  runHandlersLoop error request hs = (t, Throw x) ->
  exists h, In h (invokedIn t) /\ settled (h error request) = Err x.
Proof.
  revert t; induction hs as [|h hs IH]; intros t H.
  - discriminate H.
  - cbn [runHandlersLoop] in H.
    destruct (settled (h error request)) as [v|e] eqn:Eh.
    + rewrite (invoke_ok error request h v Eh) in H. cbn [bind] in H.
      destruct (truthy v).
      * discriminate H.
      * destruct (runHandlersLoop error request hs) as [t' c'] eqn:E.
        injection H as <- ->.
        destruct (IH t' eq_refl) as (h' & Hin & Hs).
        exists h'. split; [|exact Hs].
        rewrite invokedIn_cons, invokedIn_app.
        apply in_or_app; right. apply in_or_app. now right.
    + rewrite (invoke_err error request h e Eh) in H. cbn [bind] in H.
      injection H as <- <-.
      exists h. split; [|exact Eh]. now left.
Qed.

Lemma runHandlers_thrower (handlers : option (list Hook)) (t : list Event)
  (x : Thrown) :
  runHandlers error request handlers = (t, Rejected x) ->
  exists h, In h (invokedIn t) /\ settled (h error request) = Err x.
Proof.
  unfold runHandlers. destruct handlers as [hs|]; [|discriminate].
  destruct (runHandlersLoop error request hs) as [t' c] eqn:E.
  destruct c; simpl; intros H; try discriminate H.
  injection H as <- <-. now apply (runHandlersLoop_thrower hs).
Qed.

Lemma runHandlers_rejected_at
  (pre post : list Hook) (h : Hook) (x : Thrown) :
  forallb (declines error request) pre = true ->
  settled (h error request) = Err x ->
  runHandlers error request (Some (pre ++ h :: post)) =
    (flat_map (hookTrace error request) (pre ++ [h]), Rejected x).
Proof.
  intros Hpre Hh. unfold runHandlers.
  rewrite (runHandlersLoop_declined error request pre (h :: post) Hpre).
  cbn [runHandlersLoop]. rewrite (invoke_err error request h x Hh).
  cbn [bind async]. rewrite flat_map_app. cbn [flat_map].
  now rewrite app_nil_r.
Qed.

(** X1.  A hook whose promise is rejected ends the chain: the hooks before
    it (which resolved with falsy values) and the hook itself have been
    invoked, in order; the chain is rejected with what the hook threw, and
    no later hook is invoked. *)
Theorem hook_rejection_ends_chain
  (pre post : list Hook) (h : Hook) (x : Thrown) :
  forallb (declines error request) pre = true ->
  settled (h error request) = Err x ->
  runHandlers error request (Some (pre ++ h :: post)) =
    (flat_map (hookTrace error request) (pre ++ [h]), Rejected x) /\
  invokedIn (fst (runHandlers error request (Some (pre ++ h :: post)))) =
    pre ++ [h].
Proof.
  intros Hpre Hh.
  pose proof (runHandlers_rejected_at pre post h x Hpre Hh) as E.
  split; [exact E|].
  rewrite E. cbn [fst]. apply invokedIn_hookTraces.
Qed.

(** X2.  With no hook list the chain resolves with [undefined] at once;
    with a list (the empty one included) whose hooks all resolve with
    falsy values, every hook is invoked once, in registration order, and
    the chain resolves with [undefined]. *)
Theorem chain_without_answer
  (hs : list Hook) :
  forallb (declines error request) hs = true ->
  runHandlers error request None = ([], Resolved JsUndefined) /\
  runHandlers error request (Some hs) =
    (flat_map (hookTrace error request) hs, Resolved JsUndefined) /\
  invokedIn (fst (runHandlers error request (Some hs))) = hs.
Proof.
  intros H.
  assert (E : runHandlers error request (Some hs) =
              (flat_map (hookTrace error request) hs, Resolved JsUndefined)).
  { unfold runHandlers.
    now rewrite (runHandlersLoop_exhausted error request hs H). }
  split; [reflexivity|]. split; [exact E|].
  rewrite E. apply invokedIn_hookTraces.
Qed.

(** X3.  The chain never resolves with a defined falsy value or with
    [null]: on what it resolves with, the [isNil] test of the handler and
    the truthiness test of the loop agree. *)
Theorem chain_result_nil_or_truthy (handlers : option (list Hook)) :
  match snd (runHandlers error request handlers) with
  | Resolved v => negb (isNil v) = truthy v
  | Rejected _ => True
  end.
Proof.
  destruct (runHandlers_cases error request handlers)
    as (t & o & -> & _ & [-> | [(v & -> & Hv) | (e & ->)]]); cbn [snd].
  - reflexivity.
  - now rewrite Hv, (truthy_not_nil v Hv).
  - exact I.
Qed.

(** ** Further properties of the handler *)

(** X4.  When the before-hooks decline, the error is no redirect and is
    classified, and an after-hook is the first to resolve with a truthy
    value [v]: the classified record has been logged, once and before any
    after-hook was invoked; the handler resolves with [v]; it has not
    touched [reply], and no collaborator of the fallback rendering is
    called. *)
Theorem after_hook_result_is_returned
  (tb : list Event) (c : Classification) (pre post : list Hook) (h : Hook)
  (v : JsValue) :
  before = (tb, Resolved JsUndefined) ->
  isRedirectFoundError error = false ->
  classified = ([], Normal c) ->
  afterError deps = Some (pre ++ h :: post) ->
  forallb (declines error request) pre = true ->
  settled (h error request) = Ok v ->
  truthy v = true ->
  handler =
    (tb ++ classifiedLog c :: flat_map (hookTrace error request) (pre ++ [h]),
     Resolved v) /\
  logsOf (fst handler) =
    [(logLevel c,
      classifiedRecord requireRootErrorBoundary error c
        (requestInfoOf request))] /\
  handlerOpsOf (fst handler) = [] /\
  callsOf (fst handler) = [].
Proof.
  intros Hb Hr Hc Hdeps Hpre Hh Hv.
  assert (Ha : after =
               (flat_map (hookTrace error request) (pre ++ [h]), Resolved v)).
  { rewrite Hdeps. unfold runHandlers.
    now rewrite (runHandlersLoop_stops error request pre post h v Hpre Hh Hv). }
  destruct (runHandlers_cases error request (beforeError deps))
    as (tb' & ob & Hb' & (Lb & Ob & Cb) & _).
  rewrite Hb in Hb'. injection Hb' as <- <-.
  destruct (runHandlers_cases error request (afterError deps))
    as (ta' & oa & Ha' & (La & Oa & Ca) & _).
  rewrite Ha in Ha'. injection Ha' as <- <-.
  rewrite (after_result tb _ JsUndefined v c Hb eq_refl Hr Hc Ha
             (truthy_not_nil v Hv)).
  cbn [fst]. split; [reflexivity|].
  rewrite logsOf_app, logsOf_cons, handlerOpsOf_app, callsOf_app, callsOf_cons.
  rewrite Lb, La, Ob, Cb, Ca.
  split; [reflexivity|]. split; [|reflexivity].
  change (handlerOpsOf (classifiedLog c :: ?t)) with (handlerOpsOf t).
  exact Oa.
Qed.

(** X5.  An after-hook whose promise is rejected rejects the handler with
    what it threw, after the classified record has been logged once; the
    handler has not set the status and attempts no fallback rendering. *)
Theorem after_hook_rejection_propagates
  (tb : list Event) (c : Classification) (pre post : list Hook) (h : Hook)
  (x : Thrown) :
  before = (tb, Resolved JsUndefined) ->
  isRedirectFoundError error = false ->
  classified = ([], Normal c) ->
  afterError deps = Some (pre ++ h :: post) ->
  forallb (declines error request) pre = true ->
  settled (h error request) = Err x ->
  handler =
    (tb ++ classifiedLog c :: flat_map (hookTrace error request) (pre ++ [h]),
     Rejected x) /\
  logsOf (fst handler) =
    [(logLevel c,
      classifiedRecord requireRootErrorBoundary error c
        (requestInfoOf request))] /\
  handlerOpsOf (fst handler) = [] /\
  callsOf (fst handler) = [].
Proof.
  intros Hb Hr Hc Hdeps Hpre Hh.
  pose proof (runHandlers_rejected_at pre post h x Hpre Hh) as Ha.
  rewrite <- Hdeps in Ha.
  destruct (runHandlers_cases error request (beforeError deps))
    as (tb' & ob & Hb' & (Lb & Ob & Cb) & _).
  rewrite Hb in Hb'. injection Hb' as <- <-.
  destruct (runHandlers_cases error request (afterError deps))
    as (ta' & oa & Ha' & (La & Oa & Ca) & _).
  rewrite Ha in Ha'. injection Ha' as <- <-.
  rewrite (after_rejected tb _ JsUndefined c x Hb eq_refl Hr Hc Ha).
  cbn [fst]. split; [reflexivity|].
  rewrite logsOf_app, logsOf_cons, handlerOpsOf_app, callsOf_app, callsOf_cons.
  rewrite Lb, La, Ob, Cb, Ca.
  split; [reflexivity|]. split; [|reflexivity].
  change (handlerOpsOf (classifiedLog c :: ?t)) with (handlerOpsOf t).
  exact Oa.
Qed.

(** X6.  With no boundary configured, when the hooks decline and the error
    is classified: the handler logs the classified record (and nothing
    else), sets the status of the reply to the classified [httpStatus]
    (overriding what hooks have set), calls no collaborator of the
    fallback rendering, and is rejected with the caught error itself. *)
Theorem no_boundary_rethrows_original
  (tb ta : list Event) (c : Classification) :
  before = (tb, Resolved JsUndefined) ->
  isRedirectFoundError error = false ->
  classified = ([], Normal c) ->
  after = (ta, Resolved JsUndefined) ->
  RootErrorBoundary requireRootErrorBoundary = None ->
  snd handler = Rejected (ThrownError error) /\
  logsOf (fst handler) =
    [(logLevel c,
      classifiedRecord requireRootErrorBoundary error c
        (requestInfoOf request))] /\
  handlerOpsOf (fst handler) = [Status (cls_httpStatus c)] /\
  sentStatus (replyAfter (fst handler)) = Some (cls_httpStatus c) /\
  callsOf (fst handler) = [].
Proof.
  intros Hb Hr Hc Ha Hn.
  destruct (runHandlers_cases error request (beforeError deps))
    as (tb' & ob & Hb' & (Lb & Ob & Cb) & _).
  rewrite Hb in Hb'. injection Hb' as <- <-.
  destruct (runHandlers_cases error request (afterError deps))
    as (ta' & oa & Ha' & (La & Oa & Ca) & _).
  rewrite Ha in Ha'. injection Ha' as <- <-.
  rewrite (no_boundary_path tb ta JsUndefined JsUndefined c
             Hb eq_refl Hr Hc Ha eq_refl Hn).
  cbn [fst snd]. split; [reflexivity|].
  unfold replyAfter.
  rewrite logsOf_app, logsOf_cons, logsOf_app.
  rewrite handlerOpsOf_app.
  change (handlerOpsOf (classifiedLog c :: ?t)) with (handlerOpsOf t).
  rewrite handlerOpsOf_app.
  rewrite callsOf_app, callsOf_cons, callsOf_app.
  rewrite replyOpsOf_app, replyOpsOf_cons, replyOpsOf_app.
  rewrite Lb, La, Ob, Oa, Cb, Ca.
  split; [reflexivity|]. split; [reflexivity|]. split; [|reflexivity].
  rewrite !fold_left_app. reflexivity.
Qed.

(** X7.  What the handler is rejected with is always one of three things:
    the caught error itself, the [TypeError] of the classification, or
    what a hook that was invoked has thrown.  A failure of the fallback
    rendering is never what propagates. *)
Theorem rejection_provenance :
  match snd handler with
  | Rejected x =>
      x = ThrownError error \/
      x = ThrownTypeError undefinedToLowerCase \/
      exists h, In h (invokedIn (fst handler)) /\
                settled (h error request) = Err x
  | Resolved _ => True
  end.
Proof.
  handler_cases; cbn [fst snd]; auto.
  - right; right.
    destruct (runHandlers_thrower (afterError deps) ta e Ha)
      as (h & Hin & Hs).
    exists h. split; [|exact Hs].
    rewrite invokedIn_app, invokedIn_cons. cbn [app].
    apply in_or_app. now right.
  - right; right.
    exact (runHandlers_thrower (beforeError deps) tb e Hb).
Qed.

(** X8.  Once the before-hooks have declined and a non-redirect error is
    classified, the classified record is logged whatever happens next,
    exactly once and as the first record; it carries the caught error and
    the request info.  At most one record follows: the info record of a
    rendered boundary or the warning of a failed rendering. *)
Theorem classified_record_logged_first
  (tb : list Event) (c : Classification) :
  before = (tb, Resolved JsUndefined) ->
  isRedirectFoundError error = false ->
  classified = ([], Normal c) ->
  exists rest,
    logsOf (fst handler) =
      (logLevel c,
       classifiedRecord requireRootErrorBoundary error c
         (requestInfoOf request)) :: rest /\
    (rest = [] \/ rest = [(level_info, renderedRecord)] \/
     exists e, rest = [(level_warn, failedRecord e)]) /\
    log_error
      (classifiedRecord requireRootErrorBoundary error c
         (requestInfoOf request)) = Some (ThrownError error) /\
    log_requestInfo
      (classifiedRecord requireRootErrorBoundary error c
         (requestInfoOf request)) =
      Some {| info_ip := ip request;
              requestId := header (headers request) (lit "x-request-id");
              info_url := url request |}.
Proof.
  intros Hb0 Hr0 Hc0.
  handler_cases; try congruence.
  all: try (rewrite Hb0 in Hb; discriminate Hb).
  all: try (rewrite Hb0 in Hb; injection Hb as <- <-; discriminate).
  all: rewrite Hc0 in Hc; injection Hc as <-.
  all: cbn [fst];
    repeat rewrite ?logsOf_app, ?logsOf_cons;
    repeat match goal with
           | H : hooksOnly ?t |- _ =>
               let L := fresh in destruct H as (L & _ & _); rewrite L
           | H : logsOf ?t = [] |- _ => rewrite H; clear H
           end;
    cbn [app]; eexists; (split; [reflexivity|]);
    (split; [|split; reflexivity]).
  - right; left; reflexivity.
  - right; right. eexists; reflexivity.
  - now left.
  - now left.
  - now left.
Qed.

(** X9.  When the boundary is rendered with success, the calls of the
    fallback are the fetch of the stats and then the rendering; the
    rendered record is the last one logged; and the reply carries
    [Content-Type: text/html; charset=utf-8] and the no-cache
    [Cache-Control]. *)
Theorem fallback_success_headers
  (tb ta tf : list Event) (c : Classification) (boundary : Component)
  (p : FallbackParts) :
  before = (tb, Resolved JsUndefined) ->
  isRedirectFoundError error = false ->
  classified = ([], Normal c) ->
  after = (ta, Resolved JsUndefined) ->
  RootErrorBoundary requireRootErrorBoundary = Some boundary ->
  collected boundary (cls_httpStatus c) = (tf, Normal p) ->
  callsOf (fst handler) = [FetchWebpackStats; RenderToString] /\
  logsOf (fst handler) =
    [(logLevel c,
      classifiedRecord requireRootErrorBoundary error c
        (requestInfoOf request));
     (level_info, renderedRecord)] /\
  getHeader (lit "Content-Type") (sentHeaders (replyAfter (fst handler))) =
    Some (HeaderString (lit "text/html; charset=utf-8")) /\
  getHeader (lit "Cache-Control") (sentHeaders (replyAfter (fst handler))) =
    Some (HeaderString noCache).
Proof.
  intros Hb Hr Hc Ha Hn Hf.
  assert (Hcalls : callsOf tf = [FetchWebpackStats; RenderToString]).
  { revert Hf. unfold collectFallbackParts, call.
    repeat match goal with
           | |- context [lift ?r] =>
               destruct r; cbn [lift bind emit ret throw app]
           end;
      intros H; inversion H; reflexivity. }
  destruct (collect_cases boundary (cls_httpStatus c))
    as (tf' & Lf & Rf & _ & _ & [(p' & Hf') | (e & Hf')]);
    rewrite Hf in Hf'; [|discriminate].
  injection Hf' as <- <-.
  destruct (runHandlers_cases error request (beforeError deps))
    as (tb' & ob & Hb' & (Lb & Ob & Cb) & _).
  rewrite Hb in Hb'. injection Hb' as <- <-.
  destruct (runHandlers_cases error request (afterError deps))
    as (ta' & oa & Ha' & (La & Oa & Ca) & _).
  rewrite Ha in Ha'. injection Ha' as <- <-.
  rewrite (fallback_rendered tb ta tf JsUndefined JsUndefined c boundary p
             Hb eq_refl Hr Hc Ha eq_refl Hn Hf).
  cbn [fst]. unfold replyAfter.
  repeat rewrite ?callsOf_app, ?callsOf_cons.
  repeat rewrite ?logsOf_app, ?logsOf_cons.
  repeat rewrite ?replyOpsOf_app, ?replyOpsOf_cons.
  rewrite Lb, La, Lf, Cb, Ca, Hcalls, Rf.
  change (replyOpsOf []) with (@nil ReplyOp).
  change (logsOf []) with (@nil (LogLevel * LogRecord)).
  change (callsOf []) with (@nil Collaborator).
  cbn [app].
  split; [reflexivity|]. split; [reflexivity|].
  rewrite !fold_left_app.
  cbn [fold_left applyOp sentStatus sentHeaders].
  split.
  - rewrite getHeader_setHeader_other by reflexivity.
    rewrite getHeader_setHeader_other by reflexivity.
    apply getHeader_setHeader_same.
  - apply getHeader_setHeader_same.
Qed.

(** ** Further properties of the classification *)

(** X10.  The classification throws exactly for the errors that are
    neither not-found nor domain HTTP errors, have [statusCode >= 400] and
    no [code]; for every other error it yields a classification. *)
Theorem classification_throws_exactly_when :
  (exists t x, classified = (t, Throw x)) <->
  (isNotFoundError error = false /\ isHttpError error = false /\
   geq (statusCode error) 400 = true /\ code error = None).
Proof.
  split.
  - intros (t & x & H). revert H.
    unfold classify, codeToLowerCase.
    destruct (isNotFoundError error); [discriminate|].
    destruct (isHttpError error).
    { destruct (geq (httpStatus error) 500); discriminate. }
    destruct (geq (statusCode error) 500) eqn:E5.
    + destruct (code error); [discriminate|]. intros _.
      repeat split.
      destruct (statusCode error) as [s|]; simpl in *; [|discriminate].
      apply Z.leb_le in E5. apply Z.leb_le. lia.
    + destruct (geq (statusCode error) 400) eqn:E4; [|discriminate].
      destruct (code error); [discriminate|]. now intros _.
  - intros (Hnf & Hh & H4 & Hcode).
    destruct classify_cases as [(c & Hc) | (_ & _ & Hc)].
    + exfalso. revert Hc. unfold classify, codeToLowerCase.
      rewrite Hnf, Hh, H4, Hcode.
      destruct (geq (statusCode error) 500); discriminate.
    + eexists; eexists; exact Hc.
Qed.

(** X11.  Whatever the error, a classification logs nothing by itself and
    never returns from the handler; when it yields a result, the status is
    not 0 (a falsy status is replaced by the default), and the level and
    the event go together: level error with send-server-error, or level
    info with one of not-found-error, http-error, fastify-error-4xx.  The
    level warn is never chosen.  When it throws, it throws the
    [TypeError] of [toLowerCase]. *)
Theorem classification_invariant :
  match classified with
  | (t, Normal c) =>
      t = [] /\ cls_httpStatus c <> 0%Z /\
      ((logLevel c = level_error /\ logEvent c = lit "send-server-error") \/
       (logLevel c = level_info /\
        In (logEvent c)
          [lit "not-found-error"; lit "http-error"; lit "fastify-error-4xx"]))
  | (t, Throw x) => t = [] /\ x = ThrownTypeError undefinedToLowerCase
  | (_, Return _) => False
  end.
Proof.
  assert (Hor : forall o d, d <> 0%Z -> orElse o d <> 0%Z).
  { intros [s|] d Hd; cbn [orElse]; [|exact Hd].
    destruct (Z.eqb s 0) eqn:E; [exact Hd | now apply Z.eqb_neq]. }
  unfold classify, codeToLowerCase.
  repeat match goal with
         | |- context [if ?b then _ else _] => destruct b
         | |- context [match code error with _ => _ end] =>
             destruct (code error)
         end;
    cbn [lift bind ret throw fst snd app cls_httpStatus logLevel logEvent];
    repeat split; try (apply Hor; discriminate);
    try (left; split; reflexivity);
    right; (split; [reflexivity|]); cbn [In];
    repeat ((left; reflexivity) || right).
Qed.

(** X12.  The not-found test comes first: a not-found error is classified
    with its declared status (404 when none, or 0, is declared), level
    info and not-found-error, whatever its other tags, its [statusCode]
    and its [code]; it is never logged at error level, not even with a
    declared status of 500. *)
Theorem not_found_takes_precedence :
  isNotFoundError error = true ->
  exists c,
    classified = ([], Normal c) /\
    cls_httpStatus c = orElse (httpStatus error) 404 /\
    logLevel c = level_info /\
    logEvent c = lit "not-found-error".
Proof.
  intros H. unfold classify. rewrite H.
  eexists. split; [reflexivity|]. now repeat split.
Qed.

(** X13.  A domain HTTP error that declares a status other than 0 keeps it;
    from 500 on it is logged at error level as send-server-error, below
    500 at info level as http-error. *)
Theorem http_error_declared_status (s : Z) :
  isNotFoundError error = false ->
  isHttpError error = true ->
  httpStatus error = Some s -> s <> 0%Z ->
  exists c,
    classified = ([], Normal c) /\
    cls_httpStatus c = s /\
    ((500 <= s)%Z ->
     logLevel c = level_error /\ logEvent c = lit "send-server-error") /\
    ((s < 500)%Z -> logLevel c = level_info /\ logEvent c = lit "http-error").
Proof.
  intros Hnf Hh Hs Hne. unfold classify. rewrite Hnf, Hh, Hs.
  cbn [geq orElse].
  assert (E0 : (s =? 0)%Z = false) by now apply Z.eqb_neq.
  rewrite E0.
  destruct (500 <=? s)%Z eqn:E5.
  - apply Z.leb_le in E5.
    eexists. split; [reflexivity|]. split; [reflexivity|].
    split; [now intros _ | intros; lia].
  - apply Z.leb_gt in E5.
    eexists. split; [reflexivity|]. split; [reflexivity|].
    split; [intros; lia | now intros _].
Qed.

(** X14.  An error with none of the tags whose [statusCode] is absent or
    below 400 is classified without reading [code]: level error,
    send-server-error, and the status is the [statusCode] itself (a 302
    stays a 302), or 500 when it is absent or 0. *)
Theorem generic_status_below_400 :
  isNotFoundError error = false ->
  isHttpError error = false ->
  geq (statusCode error) 400 = false ->
  exists c,
    classified = ([], Normal c) /\
    cls_httpStatus c = orElse (statusCode error) 500 /\
    logLevel c = level_error /\
    logEvent c = lit "send-server-error" /\
    (statusCode error = None -> cls_httpStatus c = 500%Z) /\
    (forall s, statusCode error = Some s -> s <> 0%Z -> cls_httpStatus c = s).
Proof.
  intros Hnf Hh H4. unfold classify. rewrite Hnf, Hh, H4.
  assert (H5 : geq (statusCode error) 500 = false).
  { destruct (statusCode error) as [s|]; [|reflexivity].
    cbn [geq] in *. apply Z.leb_gt in H4. apply Z.leb_gt. lia. }
  rewrite H5.
  eexists. split; [reflexivity|]. cbn [cls_httpStatus logLevel logEvent].
  repeat split.
  - now intros ->.
  - intros s -> Hs. cbn [orElse]. apply Z.eqb_neq in Hs. now rewrite Hs.
Qed.

End Paths.

(** * The handler on the concrete application *)

(** C3 at an instance: two hooks decline, the third answers, the fourth is
    never called. *)
Lemma chain_stops_at_first_truthy_witness :
  runHandlers Demo.serverFault Demo.request
    (Some ([Demo.hookUndefined; Demo.hookFalse]
             ++ Demo.hookPage :: [Demo.hookTeapot])) =
    (flat_map (hookTrace Demo.serverFault Demo.request)
       ([Demo.hookUndefined; Demo.hookFalse] ++ [Demo.hookPage]),
     Resolved (JsStr (lit "<h1>custom page</h1>"))) /\
  invokedIn
    (fst (runHandlers Demo.serverFault Demo.request
            (Some ([Demo.hookUndefined; Demo.hookFalse]
                     ++ Demo.hookPage :: [Demo.hookTeapot])))) =
    [Demo.hookUndefined; Demo.hookFalse] ++ [Demo.hookPage].
Proof.
  apply (chain_stops_at_first_truthy Demo.serverFault Demo.request
           [Demo.hookUndefined; Demo.hookFalse] [Demo.hookTeapot]
           Demo.hookPage (JsStr (lit "<h1>custom page</h1>")));
    reflexivity.
Defined.

(** C3 as stated fails: hooks that resolve with [false], [0] and the
    empty string, all of them defined values, do not end the chain; the
    hook after them is invoked and it is its result that is returned. *)
Lemma chain_continues_past_defined_results :
  settled (Demo.hookFalse Demo.serverFault Demo.request) = Ok (JsBool false) /\
  isNil (JsBool false) = false /\
  isNil (JsNum 0) = false /\
  isNil (JsStr []) = false /\
  runHandlers Demo.serverFault Demo.request
    (Some [Demo.hookFalse; Demo.hookZero; Demo.hookEmptyString; Demo.hookPage]) =
    ([Invoke Demo.hookFalse; Invoke Demo.hookZero; Invoke Demo.hookEmptyString;
      Invoke Demo.hookPage; ByHook (Status 404)],
     Resolved (JsStr (lit "<h1>custom page</h1>"))).
Proof. repeat split. Qed.

(** C2 as stated fails: the 4xx error of fastify is logged with the event
    fastify-error-4xx, which is not in the vocabulary of the
    specification. *)
Lemma fastify_4xx_event_outside_spec_vocabulary :
  hasEvent (lit "fastify-error-4xx")
    (fst (Demo.handler Demo.noBoundary (Demo.depsWith None None Demo.fetchOk)
            Demo.fastifyNotFound Demo.request)) = true /\
  ~ In (lit "fastify-error-4xx") specVocabulary.
Proof.
  split; [reflexivity|].
  unfold specVocabulary. cbn [In].
  intros H.
  repeat match goal with
         | H : _ \/ _ |- _ => destruct H as [H|H]
         end;
    try (vm_compute in H; discriminate); exact H.
Qed.

(** C4 at an instance: a 415 error without [code], no hooks. *)
Lemma undefined_code_throws_type_error_witness :
  Demo.handler Demo.noBoundary (Demo.depsWith None None Demo.fetchOk)
    Demo.unsupportedMediaType Demo.request =
    ([], Rejected (ThrownTypeError undefinedToLowerCase)) /\
  snd (Demo.handler Demo.noBoundary (Demo.depsWith None None Demo.fetchOk)
         Demo.unsupportedMediaType Demo.request)
    <> Rejected (ThrownError Demo.unsupportedMediaType).
Proof.
  refine (proj2 (proj2
    (undefined_code_throws_type_error unit unit jsstring Demo.Component
       (Result jsstring)
       Demo.isRedirectFoundError Demo.isNotFoundError Demo.isHttpError
       Demo.toLowerCase Demo.parse Demo.createElement Demo.renderToString
       Demo.safeStringify Demo.newChunkExtractor Demo.getStyleTags
       Demo.getScriptTags Demo.noBoundary
       (Demo.depsWith None None Demo.fetchOk)
       Demo.unsupportedMediaType Demo.request 415
       eq_refl eq_refl eq_refl eq_refl _ eq_refl)) [] eq_refl).
  vm_compute. discriminate.
Defined.

(** C5 at an instance: the boundary is configured and the stats cannot be
    fetched. *)
Lemma failed_fallback_rethrows_original_witness :
  snd (Demo.handler (Ok Demo.fragmentBoundary)
         (Demo.depsWith None None Demo.fetchFails)
         Demo.serverFault Demo.request) =
    Rejected (ThrownError Demo.serverFault) /\
  last (fst (Demo.handler (Ok Demo.fragmentBoundary)
               (Demo.depsWith None None Demo.fetchFails)
               Demo.serverFault Demo.request)) (Call RenderToString) =
    Log level_warn
      (failedRecord (ThrownTypeError (lit "stats.json is missing"))).
Proof.
  edestruct
    (failed_fallback_rethrows_original unit unit jsstring Demo.Component
       (Result jsstring)
       Demo.isRedirectFoundError Demo.isNotFoundError Demo.isHttpError
       Demo.toLowerCase Demo.parse Demo.createElement Demo.renderToString
       Demo.safeStringify Demo.newChunkExtractor Demo.getStyleTags
       Demo.getScriptTags (Ok Demo.fragmentBoundary)
       (Demo.depsWith None None Demo.fetchFails)
       Demo.serverFault Demo.request [] [] [Call FetchWebpackStats])
    as (H & _);
    [reflexivity | reflexivity | reflexivity | reflexivity | reflexivity
    | reflexivity |].
  unfold Demo.handler. rewrite H. cbn [fst snd].
  split; [reflexivity | apply last_last].
Defined.

(** C5 as stated fails: the rendering is attempted and fails, the caught
    error is rethrown, but no record with the event failed-fallback-render
    is logged; the warning carries failed-root-error-boundary. *)
Lemma failed_fallback_event_is_not_the_spec_one :
  callsOf (fst (Demo.handler (Ok Demo.fragmentBoundary)
                  (Demo.depsWith None None Demo.fetchFails)
                  Demo.serverFault Demo.request)) = [FetchWebpackStats] /\
  snd (Demo.handler (Ok Demo.fragmentBoundary)
         (Demo.depsWith None None Demo.fetchFails)
         Demo.serverFault Demo.request) =
    Rejected (ThrownError Demo.serverFault) /\
  hasEvent (lit "failed-fallback-render")
    (fst (Demo.handler (Ok Demo.fragmentBoundary)
            (Demo.depsWith None None Demo.fetchFails)
            Demo.serverFault Demo.request)) = false /\
  hasEvent (lit "failed-root-error-boundary")
    (fst (Demo.handler (Ok Demo.fragmentBoundary)
            (Demo.depsWith None None Demo.fetchFails)
            Demo.serverFault Demo.request)) = true.
Proof. repeat split. Qed.

(** C6 at an instance: the 404 of fastify. *)
Lemma fastify_4xx_classification_witness :
  exists c,
    Demo.classification Demo.fastifyNotFound = ([], Normal c) /\
    cls_httpStatus c = 404%Z /\
    logLevel c = level_info /\
    logEvent c = lit "fastify-error-4xx".
Proof.
  apply (fastify_4xx_classification Demo.isNotFoundError Demo.isHttpError
           Demo.toLowerCase Demo.fastifyNotFound 404
           (lit "FST_ERR_NOT_FOUND"));
    try reflexivity.
  split; [intro H; discriminate H | reflexivity].
Defined.

(** C6 as stated fails: for a generic error with [statusCode = 404] the
    event of the classification is not generic-error-4xx. *)
Lemma generic_404_event_is_not_the_spec_one :
  exists c,
    Demo.classification Demo.fastifyNotFound = ([], Normal c) /\
    logLevel c = level_info /\
    logEvent c = lit "fastify-error-4xx" /\
    logEvent c <> lit "generic-error-4xx".
Proof.
  eexists. split; [reflexivity|]. split; [reflexivity|].
  split; [reflexivity|].
  vm_compute. discriminate.
Qed.

(** C7 at the failing input: status 500 with level info and http-error. *)
Lemma http_error_without_status_witness :
  exists c,
    Demo.classification Demo.httpErrorNoStatus = ([], Normal c) /\
    cls_httpStatus c = 500%Z /\
    logLevel c = level_info /\
    logEvent c = lit "http-error".
Proof.
  eexists. split; [reflexivity|].
  apply (http_error_without_status Demo.isNotFoundError Demo.isHttpError
           Demo.toLowerCase Demo.httpErrorNoStatus);
    reflexivity.
Defined.

(** C8 at an instance: a redirect to /login that declares no status, past
    a before-hook that declines. *)
Lemma redirect_short_circuits_witness :
  snd (Demo.handler (Ok Demo.documentBoundary)
         (Demo.depsWith (Some [Demo.hookFalse]) (Some [Demo.hookPage])
            Demo.fetchOk)
         Demo.redirectError Demo.request) = Resolved JsUndefined /\
  handlerOpsOf
    (fst (Demo.handler (Ok Demo.documentBoundary)
            (Demo.depsWith (Some [Demo.hookFalse]) (Some [Demo.hookPage])
               Demo.fetchOk)
            Demo.redirectError Demo.request)) =
    [Header (lit "cache-control") (HeaderString noCache);
     Redirect 307 (Some (lit "/login"))] /\
  invokedIn
    (fst (Demo.handler (Ok Demo.documentBoundary)
            (Demo.depsWith (Some [Demo.hookFalse]) (Some [Demo.hookPage])
               Demo.fetchOk)
            Demo.redirectError Demo.request)) = [Demo.hookFalse].
Proof.
  destruct
    (redirect_short_circuits unit unit jsstring Demo.Component
       (Result jsstring)
       Demo.isRedirectFoundError Demo.isNotFoundError Demo.isHttpError
       Demo.toLowerCase Demo.parse Demo.createElement Demo.renderToString
       Demo.safeStringify Demo.newChunkExtractor Demo.getStyleTags
       Demo.getScriptTags (Ok Demo.documentBoundary)
       (Demo.depsWith (Some [Demo.hookFalse]) (Some [Demo.hookPage])
          Demo.fetchOk)
       Demo.redirectError Demo.request [Invoke Demo.hookFalse]
       eq_refl eq_refl)
    as (H & _).
  unfold Demo.handler. rewrite H. repeat split.
Defined.

(** C9 at an instance: the second before-hook answers with a page. *)
Lemma before_hook_result_is_returned_witness :
  Demo.handler (Ok Demo.documentBoundary)
    (Demo.depsWith (Some ([Demo.hookFalse] ++ Demo.hookPage :: []))
       (Some [Demo.hookTeapot]) Demo.fetchOk)
    Demo.serverFault Demo.request =
    ([Invoke Demo.hookFalse; Invoke Demo.hookPage; ByHook (Status 404)],
     Resolved (JsStr (lit "<h1>custom page</h1>"))).
Proof.
  apply
    (before_hook_result_is_returned unit unit jsstring Demo.Component
       (Result jsstring)
       Demo.isRedirectFoundError Demo.isNotFoundError Demo.isHttpError
       Demo.toLowerCase Demo.parse Demo.createElement Demo.renderToString
       Demo.safeStringify Demo.newChunkExtractor Demo.getStyleTags
       Demo.getScriptTags (Ok Demo.documentBoundary)
       (Demo.depsWith (Some ([Demo.hookFalse] ++ Demo.hookPage :: []))
          (Some [Demo.hookTeapot]) Demo.fetchOk)
       Demo.serverFault Demo.request [Demo.hookFalse] [] Demo.hookPage
       (JsStr (lit "<h1>custom page</h1>"))
       eq_refl eq_refl eq_refl eq_refl).
Defined.

(** C9 as stated fails: a before-hook resolves with [0], a defined value,
    and the handler does not return it: it goes on to classify and log the
    error, and rethrows it. *)
Lemma defined_falsy_before_result_is_not_returned :
  settled (Demo.hookZero Demo.serverFault Demo.request) = Ok (JsNum 0) /\
  isNil (JsNum 0) = false /\
  snd (Demo.handler Demo.noBoundary
         (Demo.depsWith (Some [Demo.hookZero]) None Demo.fetchOk)
         Demo.serverFault Demo.request) =
    Rejected (ThrownError Demo.serverFault) /\
  hasEvent (lit "send-server-error")
    (fst (Demo.handler Demo.noBoundary
            (Demo.depsWith (Some [Demo.hookZero]) None Demo.fetchOk)
            Demo.serverFault Demo.request)) = true.
Proof. repeat split. Qed.

(** C10 at an instance: a 503 domain error, a boundary that renders a
    whole document, and an after-hook that has set the status to 418 and
    declined. *)
Lemma fallback_response_witness :
  sentStatus
    (replyAfter
       (fst (Demo.handler (Ok Demo.documentBoundary)
               (Demo.depsWith None (Some [Demo.hookTeapot]) Demo.fetchOk)
               Demo.httpError503 Demo.request))) = Some 503%Z /\
  exists body,
    snd (Demo.handler (Ok Demo.documentBoundary)
           (Demo.depsWith None (Some [Demo.hookTeapot]) Demo.fetchOk)
           Demo.httpError503 Demo.request) = Resolved (JsStr body) /\
    getHeader (lit "Content-Length")
      (sentHeaders
         (replyAfter
            (fst (Demo.handler (Ok Demo.documentBoundary)
                    (Demo.depsWith None (Some [Demo.hookTeapot]) Demo.fetchOk)
                    Demo.httpError503 Demo.request)))) =
      Some (HeaderNumber (byteLength body)) /\
    includes (Demo.quoted (lit "unavailable")) body = true /\
    includes (Demo.quoted (lit "/cart")) body = true.
Proof.
  edestruct
    (fallback_response unit unit jsstring Demo.Component (Result jsstring)
       Demo.isRedirectFoundError Demo.isNotFoundError Demo.isHttpError
       Demo.toLowerCase Demo.parse Demo.createElement Demo.renderToString
       Demo.safeStringify Demo.newChunkExtractor Demo.getStyleTags
       Demo.getScriptTags (Ok Demo.documentBoundary)
       (Demo.depsWith None (Some [Demo.hookTeapot]) Demo.fetchOk)
       Demo.httpError503 Demo.request)
    as (Hbody & Hstatus & Hlength & _ & _ & Hin);
    [reflexivity | reflexivity | reflexivity | reflexivity | reflexivity
    | reflexivity |].
  destruct Hin as [Hmessage Hurl]; [reflexivity | reflexivity |].
  split; [exact Hstatus|].
  eexists. split; [exact Hbody|]. split; [exact Hlength|].
  split; [exact Hmessage | exact Hurl].
Defined.

(** C10 as stated fails: a boundary that renders a fragment with no
    closing head tag is rendered with success, and the body is the
    fragment as it is: neither the serialized message nor the serialized
    URL is in it. *)
Lemma fragment_body_lacks_serialized_state :
  Demo.safeStringify (JsonString (message Demo.serverFault)) =
    Ok (Demo.quoted (lit "boom")) /\
  Demo.safeStringify (JsonUrl (url Demo.request)) =
    Ok (Demo.quoted (lit "/cart")) /\
  hasEvent (lit "render-root-error-boundary")
    (fst (Demo.handler (Ok Demo.fragmentBoundary)
            (Demo.depsWith None None Demo.fetchOk)
            Demo.serverFault Demo.request)) = true /\
  snd (Demo.handler (Ok Demo.fragmentBoundary)
         (Demo.depsWith None None Demo.fetchOk)
         Demo.serverFault Demo.request) =
    Resolved (JsStr (lit "<div>Something went wrong</div>")) /\
  includes (Demo.quoted (lit "boom")) (lit "<div>Something went wrong</div>") =
    false /\
  includes (Demo.quoted (lit "/cart")) (lit "<div>Something went wrong</div>") =
    false.
Proof. repeat split. Qed.

(** The replacement text of [replace] is not taken literally: [$$] in it
    becomes one [$] and [$&] the matched tag. *)
Example replace_expands_dollar_patterns :
  replace (lit "<head></head>") (lit "</head>") (lit "a$$b$&c</head>") =
    lit "<head>a$b</head>c</head>".
Proof. reflexivity. Qed.

(** [Buffer.byteLength] counts bytes, not code units: two for U+00E9, four
    for a surrogate pair, three for a lone surrogate. *)
Example byteLength_examples :
  byteLength (lit "abc") = 3%Z /\
  byteLength [233%N] = 2%Z /\
  byteLength [55357%N; 56832%N] = 4%Z /\
  byteLength [55357%N] = 3%Z.
Proof. repeat split. Qed.

(** * The client rendering *)

Section ClientRendering.

Import Client.

Variables Element Container RenderMode : Type.
Variable strictMode : Element -> Element.
Variable renderReact : Result Element.
Variable applicationContainer : option Container.
Variable renderer : Params Element Container RenderMode -> RendererRun.
Variable options : Options Element RenderMode.

Local Abbreviation page := (Page Element Container RenderMode).
Local Abbreviation callbacks :=
  (match rendererCallback options with Some cbs => cbs | None => [] end).
Local Abbreviation run :=
  (rendering strictMode renderReact applicationContainer renderer options).
Local Abbreviation ready := (prepare renderReact options).

Lemma notify_spec (renderErr : option Thrown) (pg : page) (cb : Callback) :
  promise (notify renderErr pg cb) = promise pg /\
  notifications (effects (notify renderErr pg cb)) =
    notifications (effects pg) ++ [(cb, renderErr)] /\
  consoleErrors (effects (notify renderErr pg cb)) =
    consoleErrors (effects pg) ++ thrownBy renderErr cb /\
  renderings (effects (notify renderErr pg cb)) = renderings (effects pg).
Proof.
  unfold notify, thrownBy, notifications, consoleErrors, renderings.
  destruct (cb renderErr); cbn [perform effects promise];
    rewrite ?flat_map_app; cbn [flat_map app];
    now rewrite ?app_nil_r, <- ?app_assoc.
Qed.

Lemma notify_all_spec (renderErr : option Thrown) (cbs : list Callback)
  (pg : page) :
  promise (fold_left (notify renderErr) cbs pg) = promise pg /\
  notifications (effects (fold_left (notify renderErr) cbs pg)) =
    notifications (effects pg) ++ List.map (fun cb => (cb, renderErr)) cbs /\
  consoleErrors (effects (fold_left (notify renderErr) cbs pg)) =
    consoleErrors (effects pg) ++ flat_map (thrownBy renderErr) cbs /\
  renderings (effects (fold_left (notify renderErr) cbs pg)) =
    renderings (effects pg).
Proof.
  revert pg; induction cbs as [|cb cbs IH]; intros pg; cbn [fold_left].
  - cbn [List.map flat_map]. now rewrite !app_nil_r.
  - destruct (IH (notify renderErr pg cb)) as (P & N & C & R).
    destruct (notify_spec renderErr pg cb) as (P1 & N1 & C1 & R1).
    rewrite P, N, C, R, P1, N1, C1, R1.
    cbn [List.map flat_map]. now rewrite <- !app_assoc.
Qed.

(** X15.  [executeRendererCallbacks] calls every registered callback once,
    in order, with the same argument, whether or not earlier callbacks
    throw; what the callbacks throw goes to [console.error], in order, and
    nowhere else: the state of the promise is not touched and [renderer]
    is not called. *)
Theorem every_renderer_callback_is_notified
  (renderErr : option Thrown) (pg : page) :
  promise (executeRendererCallbacks options renderErr pg) = promise pg /\
  notifications (effects (executeRendererCallbacks options renderErr pg)) =
    notifications (effects pg)
      ++ List.map (fun cb => (cb, renderErr)) callbacks /\
  consoleErrors (effects (executeRendererCallbacks options renderErr pg)) =
    consoleErrors (effects pg) ++ flat_map (thrownBy renderErr) callbacks /\
  renderings (effects (executeRendererCallbacks options renderErr pg)) =
    renderings (effects pg).
Proof.
  unfold executeRendererCallbacks.
  destruct (rendererCallback options) as [cbs|].
  - apply notify_all_spec.
  - cbn [List.map flat_map]. now rewrite !app_nil_r.
Qed.

Lemma callback_spec (pg : page) :
  promise (callback options pg) = settle (promise pg) Fulfilled /\
  notifications (effects (callback options pg)) =
    notifications (effects pg) ++ List.map (fun cb => (cb, None)) callbacks /\
  renderings (effects (callback options pg)) = renderings (effects pg).
Proof.
  unfold callback, resolve, executeRendererCallbacks. cbn [promise effects].
  set (pg' := perform (RemoveClass (lit "html") (lit "no-js"))
                (perform (LogDebug (lit "App rendering")) pg)).
  assert (E : promise pg' = promise pg /\
              notifications (effects pg') = notifications (effects pg) /\
              renderings (effects pg') = renderings (effects pg)).
  { unfold pg', notifications, renderings. cbn [perform effects promise].
    rewrite !flat_map_app. cbn [flat_map]. now rewrite !app_nil_r. }
  destruct E as (P0 & N0 & R0).
  destruct (rendererCallback options) as [cbs|].
  - destruct (notify_all_spec None cbs pg') as (P & N & _ & R).
    now rewrite P, N, R, P0, N0, R0.
  - cbn [List.map]. now rewrite app_nil_r, P0, N0, R0.
Qed.

Lemma settle_idempotent (p q : PromiseState) :
  settle (settle p q) q = settle p q.
Proof. destruct p, q; reflexivity. Qed.

Lemma executeRendererCallbacks_frame (renderErr : option Thrown) (pg : page) :
  promise (executeRendererCallbacks options renderErr pg) = promise pg /\
  notifications (effects (executeRendererCallbacks options renderErr pg)) =
    notifications (effects pg)
      ++ List.map (fun cb => (cb, renderErr)) callbacks /\
  renderings (effects (executeRendererCallbacks options renderErr pg)) =
    renderings (effects pg).
Proof.
  unfold executeRendererCallbacks.
  destruct (rendererCallback options) as [cbs|].
  - destruct (notify_all_spec renderErr cbs pg) as (P & N & _ & R).
    now rewrite P, N, R.
  - cbn [List.map]. now rewrite app_nil_r.
Qed.

Lemma iter_callback_spec (n : nat) (pg : page) :
  promise (Nat.iter n (callback options) pg) =
    match n with
    | O => promise pg
    | S _ => settle (promise pg) Fulfilled
    end /\
  notifications (effects (Nat.iter n (callback options) pg)) =
    notifications (effects pg)
      ++ List.concat (repeat (List.map (fun cb => (cb, None)) callbacks) n) /\
  renderings (effects (Nat.iter n (callback options) pg)) =
    renderings (effects pg).
Proof.
  induction n as [|n (P & N & R)].
  - cbn [Nat.iter repeat List.concat]. now rewrite app_nil_r.
  - change (Nat.iter (S n) (callback options) pg)
      with (callback options (Nat.iter n (callback options) pg)).
    destruct (callback_spec (Nat.iter n (callback options) pg))
      as (P' & N' & R').
    rewrite P', N', R', P, N, R. repeat split.
    + destruct n; [reflexivity | apply settle_idempotent].
    + rewrite <- app_assoc. f_equal.
      cbn [repeat]. rewrite repeat_cons, concat_app. cbn [List.concat].
      now rewrite app_nil_r.
Qed.

(** What [rendering] does once the element is ready. *)
Lemma rendering_when_ready :
  run =
    match ready with
    | Err e => reject e (start Element Container RenderMode)
    | Ok renderResult =>
        match customRender options with
        | Some custom =>
            match custom renderResult with
            | Ok _ =>
                perform (CustomRendered renderResult)
                  (start Element Container RenderMode)
            | Err e =>
                reject e
                  (perform (CustomRendered renderResult)
                     (start Element Container RenderMode))
            end
        | None =>
            let params :=
              {| element :=
                   if useStrictMode options then strictMode renderResult
                   else renderResult;
                 container := applicationContainer;
                 paramsRenderMode := renderMode options |} in
            let pg :=
              Nat.iter (callbacksDuringCall (renderer params))
                (callback options)
                (perform (Rendered params)
                   (start Element Container RenderMode)) in
            match failure (renderer params) with
            | None => pg
            | Some e => reject e (executeRendererCallbacks options (Some e) pg)
            end
        end
    end.
Proof.
  unfold rendering, prepare.
  destruct renderReact as [initial|e]; [|reflexivity].
  destruct (extendRender options) as [renders|]; reflexivity.
Qed.

(** X16.  [callback], whenever [renderer] calls it: it logs, removes the
    class no-js from the html element, notifies every renderer callback
    once with no error, and resolves the promise.  A promise that was
    already rejected stays rejected. *)
Theorem callback_notifies_and_resolves (pg : page) :
  (exists rest,
     effects (callback options pg) =
       effects pg ++ LogDebug (lit "App rendering")
         :: RemoveClass (lit "html") (lit "no-js") :: rest) /\
  notifications (effects (callback options pg)) =
    notifications (effects pg) ++ List.map (fun cb => (cb, None)) callbacks /\
  (promise pg = Pending -> promise (callback options pg) = Fulfilled) /\
  (forall e, promise pg = RejectedWith e ->
             promise (callback options pg) = RejectedWith e).
Proof.
  destruct (callback_spec pg) as (P & N & _).
  split; [|split; [exact N|split]].
  - unfold callback, resolve, executeRendererCallbacks. cbn [effects].
    set (pg' := perform (RemoveClass (lit "html") (lit "no-js"))
                  (perform (LogDebug (lit "App rendering")) pg)).
    assert (G : forall cbs (q : page),
              exists rest,
                effects (fold_left (notify None) cbs q) = effects q ++ rest).
    { induction cbs as [|cb cbs IH]; intros q; cbn [fold_left].
      - exists []. now rewrite app_nil_r.
      - destruct (IH (notify None q cb)) as (rest & ->).
        unfold notify. destruct (cb None); cbn [perform effects];
          rewrite <- ?app_assoc; eexists; reflexivity. }
    destruct (rendererCallback options) as [cbs|].
    + destruct (G cbs pg') as (rest & ->). exists rest.
      unfold pg'. cbn [perform effects]. now rewrite <- !app_assoc.
    + exists []. unfold pg'. cbn [perform effects]. now rewrite <- !app_assoc.
  - intros H. now rewrite P, H.
  - intros e H. now rewrite P, H.
Qed.


(** X18.  With a [customRender], the rendering is handed over to it: it is
    given the extended element, not wrapped in strict mode; [renderer] is
    not called and no renderer callback is notified.  The promise is left
    pending when [customRender] returns, and is rejected with what it
    throws. *)
Theorem custom_render_bypasses_renderer
  (renderResult : Element) (custom : Element -> Result unit) :
  ready = Ok renderResult ->
  customRender options = Some custom ->
  effects run = [CustomRendered renderResult] /\
  renderings (effects run) = [] /\
  notifications (effects run) = [] /\
  promise run =
    match custom renderResult with
    | Ok _ => Pending
    | Err e => RejectedWith e
    end.
Proof.
  intros Hr Hc. rewrite rendering_when_ready, Hr, Hc.
  destruct (custom renderResult); repeat split.
Qed.

(** X19.  Without a [customRender], [renderer] is called exactly once, with
    the extended element (wrapped in strict mode exactly when
    [useStrictMode] is set), the container found in the document and the
    render mode of the options. *)
Theorem renderer_called_once (renderResult : Element) :
  ready = Ok renderResult ->
  customRender options = None ->
  renderings (effects run) =
    [{| element :=
          if useStrictMode options then strictMode renderResult
          else renderResult;
        container := applicationContainer;
        paramsRenderMode := renderMode options |}].
Proof.
  intros Hr Hc. rewrite rendering_when_ready, Hr, Hc. cbv zeta.
  set (params := {| element := _; container := _; paramsRenderMode := _ |}).
  destruct (iter_callback_spec (callbacksDuringCall (renderer params))
              (perform (Rendered params) (start Element Container RenderMode)))
    as (_ & _ & R).
  destruct (failure (renderer params)) as [e|].
  - cbn [reject effects].
    destruct (executeRendererCallbacks_frame (Some e)
                (Nat.iter (callbacksDuringCall (renderer params))
                   (callback options)
                   (perform (Rendered params)
                      (start Element Container RenderMode))))
      as (_ & _ & R').
    now rewrite R', R.
  - now rewrite R.
Qed.

(** X20.  How the promise ends when [renderer] is called.  If [renderer]
    calls [callback] before it returns or throws, the promise is
    fulfilled, and a later throw does not reject it; if it throws without
    having called back, the promise is rejected with what it threw; if it
    returns without having called back, the promise is still pending.
    The renderer callbacks are notified once with no error for every call
    of [callback], and once more, with the error, when [renderer]
    throws. *)
Theorem rendering_outcome (renderResult : Element) :
  ready = Ok renderResult ->
  customRender options = None ->
  let params :=
    {| element :=
         if useStrictMode options then strictMode renderResult
         else renderResult;
       container := applicationContainer;
       paramsRenderMode := renderMode options |} in
  promise run =
    match callbacksDuringCall (renderer params), failure (renderer params) with
    | S _, _ => Fulfilled
    | O, Some e => RejectedWith e
    | O, None => Pending
    end /\
  notifications (effects run) =
    List.concat
      (repeat (List.map (fun cb => (cb, None)) callbacks)
         (callbacksDuringCall (renderer params)))
      ++ match failure (renderer params) with
         | Some e => List.map (fun cb => (cb, Some e)) callbacks
         | None => []
         end.
Proof.
  intros Hr Hc params. rewrite rendering_when_ready, Hr, Hc. cbv zeta.
  fold params.
  destruct (iter_callback_spec (callbacksDuringCall (renderer params))
              (perform (Rendered params) (start Element Container RenderMode)))
    as (P & N & _).
  destruct (failure (renderer params)) as [e|].
  - destruct (executeRendererCallbacks_frame (Some e)
                (Nat.iter (callbacksDuringCall (renderer params))
                   (callback options)
                   (perform (Rendered params)
                      (start Element Container RenderMode))))
      as (P' & N' & _).
    cbn [reject effects promise]. rewrite P', N', P, N. split.
    + now destruct (callbacksDuringCall (renderer params)).
    + reflexivity.
  - rewrite P, N. split.
    + now destruct (callbacksDuringCall (renderer params)).
    + now rewrite app_nil_r.
Qed.

(** X21.  When [renderReact] or an extension throws, the promise is
    rejected with what was thrown and nothing else happens: [renderer] and
    [customRender] are not called and no renderer callback is notified of
    the failure. *)
Theorem preparation_failure_rejects (e : Thrown) :
  ready = Err e ->
  run = {| effects := []; promise := RejectedWith e |}.
Proof.
  intros Hr. now rewrite rendering_when_ready, Hr.
Qed.

End ClientRendering.

(** [rendering] on the instances. *)

Lemma custom_render_bypasses_renderer_witness :
  Client.effects
    (Client.rendering Client.demoStrictMode (Ok (lit "<App/>")) (Some tt)
       Client.demoRenderer
       (Client.demoOptions (Some (fun _ => Ok tt))
          (Some [Client.demoProvider]) true)) =
    [Client.CustomRendered (lit "<Provider>" ++ lit "<App/>" ++ lit "</Provider>")] /\
  Client.promise
    (Client.rendering Client.demoStrictMode (Ok (lit "<App/>")) (Some tt)
       Client.demoRenderer
       (Client.demoOptions (Some (fun _ => Ok tt))
          (Some [Client.demoProvider]) true)) = Client.Pending.
Proof.
  destruct
    (custom_render_bypasses_renderer jsstring unit unit
       Client.demoStrictMode (Ok (lit "<App/>")) (Some tt) Client.demoRenderer
       (Client.demoOptions (Some (fun _ => Ok tt))
          (Some [Client.demoProvider]) true)
       (lit "<Provider>" ++ lit "<App/>" ++ lit "</Provider>")
       (fun _ => Ok tt) eq_refl eq_refl)
    as (E & _ & _ & P).
  split; [exact E | exact P].
Defined.

Lemma renderer_called_once_witness :
  Client.renderings
    (Client.effects
       (Client.rendering Client.demoStrictMode (Ok (lit "<App/>")) (Some tt)
          Client.demoRenderer
          (Client.demoOptions None (Some [Client.demoProvider]) true))) =
    [{| Client.element :=
          Client.demoStrictMode
            (lit "<Provider>" ++ lit "<App/>" ++ lit "</Provider>");
        Client.container := Some tt;
        Client.paramsRenderMode := None |}].
Proof.
  exact
    (renderer_called_once jsstring unit unit
       Client.demoStrictMode (Ok (lit "<App/>")) (Some tt) Client.demoRenderer
       (Client.demoOptions None (Some [Client.demoProvider]) true)
       (lit "<Provider>" ++ lit "<App/>" ++ lit "</Provider>")
       eq_refl eq_refl).
Defined.

(** A renderer that calls back and then throws: the promise is fulfilled,
    and both callbacks are notified twice. *)
Lemma rendering_outcome_witness :
  Client.promise
    (Client.rendering Client.demoStrictMode (Ok (lit "<App/>")) (Some tt)
       Client.demoLateFailingRenderer
       (Client.demoOptions None None false)) = Client.Fulfilled /\
  Client.notifications
    (Client.effects
       (Client.rendering Client.demoStrictMode (Ok (lit "<App/>")) (Some tt)
          Client.demoLateFailingRenderer
          (Client.demoOptions None None false))) =
    [(Client.demoThrowingCallback, None); (Client.demoQuietCallback, None);
     (Client.demoThrowingCallback, Some Client.demoHydrationError);
     (Client.demoQuietCallback, Some Client.demoHydrationError)].
Proof.
  exact
    (rendering_outcome jsstring unit unit
       Client.demoStrictMode (Ok (lit "<App/>")) (Some tt)
       Client.demoLateFailingRenderer
       (Client.demoOptions None None false) (lit "<App/>")
       eq_refl eq_refl).
Defined.

Lemma preparation_failure_rejects_witness :
  Client.rendering Client.demoStrictMode (Ok (lit "<App/>")) (Some tt)
    Client.demoRenderer
    (Client.demoOptions None
       (Some [Client.demoProvider; Client.demoBrokenExtension]) false) =
    {| Client.effects := [];
       Client.promise :=
         Client.RejectedWith (ThrownTypeError (lit "extension failed")) |}.
Proof.
  exact
    (preparation_failure_rejects jsstring unit unit
       Client.demoStrictMode (Ok (lit "<App/>")) (Some tt) Client.demoRenderer
       (Client.demoOptions None
          (Some [Client.demoProvider; Client.demoBrokenExtension]) false)
       (ThrownTypeError (lit "extension failed")) eq_refl).
Defined.

(** * The settings of the config manager *)

Lemma getProp_setProp_same (key : jsstring) (value : JsValue) (o : Cli.Obj) :
  Cli.getProp (Cli.setProp key value o) key = value.
Proof.
  induction o as [|[k v] o IH]; simpl.
  - now rewrite jsstring_eqb_refl.
  - destruct (jsstring_eqb k key) eqn:E; simpl.
    + now rewrite jsstring_eqb_refl.
    + now rewrite E.
Qed.

Lemma getProp_setProp_other (key other : jsstring) (value : JsValue)
  (o : Cli.Obj) :
  jsstring_eqb other key = false ->
  Cli.getProp (Cli.setProp other value o) key = Cli.getProp o key.
Proof.
  intros Hne.
  induction o as [|[k v] o IH]; simpl.
  - now rewrite Hne.
  - destruct (jsstring_eqb k other) eqn:E; simpl.
    + apply jsstring_eqb_eq in E; subst k. now rewrite Hne.
    + destruct (jsstring_eqb k key); [reflexivity | exact IH].
Qed.

(** X22.  The settings given to [createConfigManager]: [env] is always
    development, whatever the command parameters say; the [env] of the
    parameters is kept as [appEnv] ([undefined] when there is none); the
    port is the one of the port manager, not the one of the parameters;
    every other parameter is passed on as it is. *)
Theorem config_manager_settings (parameters : Cli.Obj) (port : JsValue) :
  Cli.getProp (Cli.configManagerSettings parameters port) (lit "env") =
    JsStr (lit "development") /\
  Cli.getProp (Cli.configManagerSettings parameters port) (lit "appEnv") =
    Cli.getProp parameters (lit "env") /\
  Cli.getProp (Cli.configManagerSettings parameters port) (lit "port") =
    port /\
  forall key,
    jsstring_eqb (lit "env") key = false ->
    jsstring_eqb (lit "appEnv") key = false ->
    jsstring_eqb (lit "port") key = false ->
    Cli.getProp (Cli.configManagerSettings parameters port) key =
      Cli.getProp parameters key.
Proof.
  unfold Cli.configManagerSettings. repeat split.
  - rewrite getProp_setProp_other by reflexivity.
    apply getProp_setProp_same.
  - rewrite getProp_setProp_other by reflexivity.
    rewrite getProp_setProp_other by reflexivity.
    apply getProp_setProp_same.
  - apply getProp_setProp_same.
  - intros key He Ha Hp.
    now rewrite !getProp_setProp_other.
Qed.

(** * The body of the fallback and its length *)

Lemma splitFirst_minimal (pat s before after : jsstring) :
  splitFirst pat s = Some (before, after) ->
  forall b a, s = b ++ pat ++ a -> (List.length before <= List.length b)%nat.
Proof.
  revert before after; induction s as [|c s IH]; intros before after H b a Hs.
  - simpl in H. destruct (startsWith pat []); [|discriminate].
    injection H as <- <-. apply Nat.le_0_l.
  - cbn [splitFirst] in H.
    destruct (startsWith pat (c :: s)) eqn:E.
    + injection H as <- <-. apply Nat.le_0_l.
    + destruct (splitFirst pat s) as [[b0 a0]|] eqn:Es; [|discriminate].
      injection H as <- <-.
      destruct b as [|d b].
      * simpl in Hs. rewrite Hs, startsWith_app in E. discriminate E.
      * simpl in Hs. injection Hs as -> Hs.
        simpl. apply le_n_S. exact (IH b0 a0 eq_refl b a Hs).
Qed.

Lemma headInjection_shape (p : FallbackParts) :
  headInjection p =
    serverStateScript p ++ newline
      ++ flat_map (fun tags => tags ++ newline)
           (filter nonEmpty [styleTags p; scriptTags p])
      ++ lit "</head>".
Proof.
  unfold headInjection.
  assert (Hs : nonEmpty (serverStateScript p) = true) by reflexivity.
  assert (Hh : nonEmpty (lit "</head>") = true) by reflexivity.
  cbn [filter]. rewrite Hs, Hh.
  destruct (styleTags p) as [|x st], (scriptTags p) as [|y sc];
    cbn [nonEmpty flat_map join app];
    rewrite ?app_nil_r;
    repeat (rewrite <- app_assoc || rewrite <- app_comm_cons);
    reflexivity.
Qed.

(** X23.  When the rendered markup has no closing head tag, the body is
    the markup as it is: nothing is injected. *)
Theorem fallback_body_without_head (p : FallbackParts) :
  includes (lit "</head>") (markup p) = false ->
  fallbackBody p = markup p.
Proof.
  intros H. unfold fallbackBody. now apply replace_absent.
Qed.

(** X24.  When the rendered markup has a closing head tag (and the
    injected text has no [$]), the body is the markup with, immediately
    before its first closing head tag, the script of the server state, a
    line break, and each non-empty string of tags followed by a line
    break; the tag itself and everything around it stay as they were. *)
Theorem fallback_body_injects_before_first_head (p : FallbackParts) :
  includes (lit "</head>") (markup p) = true ->
  noDollar (headInjection p) = true ->
  exists before after,
    markup p = before ++ lit "</head>" ++ after /\
    (forall b a, markup p = b ++ lit "</head>" ++ a ->
                 (List.length before <= List.length b)%nat) /\
    fallbackBody p =
      before ++ serverStateScript p ++ newline
        ++ flat_map (fun tags => tags ++ newline)
             (filter nonEmpty [styleTags p; scriptTags p])
        ++ lit "</head>" ++ after.
Proof.
  intros Hin Hd. unfold fallbackBody, replace.
  unfold includes in Hin.
  destruct (splitFirst (lit "</head>") (markup p)) as [[b a]|] eqn:E;
    [|discriminate].
  exists b, a. split; [now apply splitFirst_sound|]. split.
  - exact (splitFirst_minimal _ _ _ _ E).
  - rewrite (getSubstitution_noDollar _ _ _ _ Hd), headInjection_shape.
    now rewrite <- !app_assoc.
Qed.

Lemma utf8OfCodePoint_length (cp : N) :
  (cp < 65536)%N ->
  (1 <= List.length (utf8OfCodePoint cp) <= 3)%nat.
Proof.
  intros H. unfold utf8OfCodePoint.
  destruct (cp <? 128)%N; [simpl; lia|].
  destruct (cp <? 2048)%N; [simpl; lia|].
  destruct (cp <? 65536)%N eqn:E; [simpl; lia|].
  apply N.ltb_ge in E. lia.
Qed.

Lemma utf8OfCodePoint_astral (cp : N) :
  (65536 <= cp)%N -> List.length (utf8OfCodePoint cp) = 4%nat.
Proof.
  intros H. unfold utf8OfCodePoint.
  assert (E1 : (cp <? 128)%N = false) by (apply N.ltb_ge; lia).
  assert (E2 : (cp <? 2048)%N = false) by (apply N.ltb_ge; lia).
  assert (E3 : (cp <? 65536)%N = false) by (apply N.ltb_ge; lia).
  now rewrite E1, E2, E3.
Qed.

Lemma utf8Encode_cons (c : N) (rest : jsstring) :
  utf8Encode (c :: rest) =
    if isLeadSurrogate c then
      match rest with
      | d :: rest' =>
          if isTrailSurrogate d then
            utf8OfCodePoint
              (65536 + N.shiftl (c - 55296) 10 + (d - 56320))%N
              ++ utf8Encode rest'
          else utf8OfCodePoint replacementCharacter ++ utf8Encode rest
      | [] => utf8OfCodePoint replacementCharacter
      end
    else if isTrailSurrogate c then
      utf8OfCodePoint replacementCharacter ++ utf8Encode rest
    else utf8OfCodePoint c ++ utf8Encode rest.
Proof. reflexivity. Qed.

Lemma utf8Encode_length_bounds (s : jsstring) :
  Forall (fun c => (c < 65536)%N) s ->
  (List.length s <= List.length (utf8Encode s) <= 3 * List.length s)%nat /\
  forall c, (c < 65536)%N ->
    (List.length (c :: s) <= List.length (utf8Encode (c :: s))
       <= 3 * List.length (c :: s))%nat.
Proof.
  assert (R : List.length (utf8OfCodePoint replacementCharacter) = 3%nat)
    by reflexivity.
  induction s as [|d s IH]; intros Hs.
  - split; [simpl; lia|]. intros c Hc.
    pose proof (utf8OfCodePoint_length c Hc) as L.
    rewrite (utf8Encode_cons c []).
    destruct (isLeadSurrogate c); [rewrite R; simpl; lia|].
    destruct (isTrailSurrogate c); rewrite length_app, ?R; simpl; lia.
  - inversion Hs as [|? ? Hd Hs']; subst.
    destruct (IH Hs') as [P0 P1].
    pose proof (P1 d Hd) as Pd.
    split; [exact Pd|]. intros c Hc.
    pose proof (utf8OfCodePoint_length c Hc) as L.
    rewrite (utf8Encode_cons c (d :: s)).
    destruct (isLeadSurrogate c).
    + destruct (isTrailSurrogate d).
      * rewrite length_app, utf8OfCodePoint_astral
          by (rewrite <- N.add_assoc; apply N.le_add_r).
        cbn [List.length] in *. lia.
      * rewrite length_app, R. cbn [List.length] in *. lia.
    + destruct (isTrailSurrogate c);
        rewrite length_app, ?R; cbn [List.length] in *; lia.
Qed.

(** X25.  The [Content-Length] that [Buffer.byteLength] gives for a body is
    at least the number of code units of the body and at most three times
    that number. *)
Theorem byte_length_bounds (body : jsstring) :
  Forall (fun c => (c < 65536)%N) body ->
  (Z.of_nat (List.length body) <= byteLength body
     <= 3 * Z.of_nat (List.length body))%Z.
Proof.
  intros H. destruct (utf8Encode_length_bounds body H) as [B _].
  unfold byteLength. lia.
Qed.

(** X26.  For a body of ASCII characters only, the encoding is the body
    itself and [Content-Length] is its length in characters. *)
Theorem ascii_byte_length (body : jsstring) :
  Forall (fun c => (c < 128)%N) body ->
  utf8Encode body = body /\
  byteLength body = Z.of_nat (List.length body).
Proof.
  intros H.
  assert (E : utf8Encode body = body).
  { induction H as [|c s Hc Hs IH]; [reflexivity|].
    rewrite (utf8Encode_cons c s).
    assert (L : isLeadSurrogate c = false).
    { unfold isLeadSurrogate. apply andb_false_iff. left.
      apply N.leb_gt. lia. }
    assert (T : isTrailSurrogate c = false).
    { unfold isTrailSurrogate. apply andb_false_iff. left.
      apply N.leb_gt. lia. }
    assert (A : utf8OfCodePoint c = [c]).
    { unfold utf8OfCodePoint.
      assert (E1 : (c <? 128)%N = true) by (apply N.ltb_lt; lia).
      now rewrite E1. }
    now rewrite L, T, A, IH. }
  split; [exact E|]. unfold byteLength. now rewrite E.
Qed.

(** * Further runs on the concrete application *)

Lemma hook_rejection_ends_chain_witness :
  runHandlers Demo.serverFault Demo.request
    (Some ([Demo.hookFalse] ++ Scenario.hookThrows :: [Demo.hookPage])) =
    ([Invoke Demo.hookFalse; Invoke Scenario.hookThrows; ByHook (Status 500)],
     Rejected Scenario.hookFailure).
Proof.
  apply (hook_rejection_ends_chain Demo.serverFault Demo.request
           [Demo.hookFalse] [Demo.hookPage] Scenario.hookThrows
           Scenario.hookFailure eq_refl eq_refl).
Defined.

Lemma chain_without_answer_witness :
  runHandlers Demo.serverFault Demo.request
    (Some [Demo.hookUndefined; Demo.hookFalse]) =
    ([Invoke Demo.hookUndefined; Invoke Demo.hookFalse], Resolved JsUndefined).
Proof.
  apply (chain_without_answer Demo.serverFault Demo.request
           [Demo.hookUndefined; Demo.hookFalse] eq_refl).
Defined.

Lemma after_hook_result_is_returned_witness :
  snd (Demo.handler (Ok Demo.documentBoundary)
         (Demo.depsWith None (Some ([Demo.hookFalse] ++ Demo.hookPage :: []))
            Demo.fetchOk)
         Demo.serverFault Demo.request) =
    Resolved (JsStr (lit "<h1>custom page</h1>")) /\
  List.map (fun lr => (fst lr, event (snd lr)))
    (logsOf
       (fst (Demo.handler (Ok Demo.documentBoundary)
               (Demo.depsWith None
                  (Some ([Demo.hookFalse] ++ Demo.hookPage :: []))
                  Demo.fetchOk)
               Demo.serverFault Demo.request))) =
    [(level_error, lit "send-server-error")].
Proof.
  epose proof
    (after_hook_result_is_returned unit unit jsstring Demo.Component
       (Result jsstring)
       Demo.isRedirectFoundError Demo.isNotFoundError Demo.isHttpError
       Demo.toLowerCase Demo.parse Demo.createElement Demo.renderToString
       Demo.safeStringify Demo.newChunkExtractor Demo.getStyleTags
       Demo.getScriptTags (Ok Demo.documentBoundary)
       (Demo.depsWith None (Some ([Demo.hookFalse] ++ Demo.hookPage :: []))
          Demo.fetchOk)
       Demo.serverFault Demo.request [] _ [Demo.hookFalse] [] Demo.hookPage
       (JsStr (lit "<h1>custom page</h1>")))
    as W.
  edestruct W as (H & L & _);
    [reflexivity | reflexivity | reflexivity | reflexivity | reflexivity
    | reflexivity | reflexivity |].
  unfold Demo.handler. rewrite L, H. split; reflexivity.
Defined.

Lemma after_hook_rejection_propagates_witness :
  snd (Demo.handler (Ok Demo.documentBoundary)
         (Demo.depsWith None (Some ([] ++ Scenario.hookThrows :: [Demo.hookPage]))
            Demo.fetchOk)
         Demo.serverFault Demo.request) = Rejected Scenario.hookFailure /\
  handlerOpsOf
    (fst (Demo.handler (Ok Demo.documentBoundary)
            (Demo.depsWith None
               (Some ([] ++ Scenario.hookThrows :: [Demo.hookPage]))
               Demo.fetchOk)
            Demo.serverFault Demo.request)) = [].
Proof.
  epose proof
    (after_hook_rejection_propagates unit unit jsstring Demo.Component
       (Result jsstring)
       Demo.isRedirectFoundError Demo.isNotFoundError Demo.isHttpError
       Demo.toLowerCase Demo.parse Demo.createElement Demo.renderToString
       Demo.safeStringify Demo.newChunkExtractor Demo.getStyleTags
       Demo.getScriptTags (Ok Demo.documentBoundary)
       (Demo.depsWith None
          (Some ([] ++ Scenario.hookThrows :: [Demo.hookPage])) Demo.fetchOk)
       Demo.serverFault Demo.request [] _ [] [Demo.hookPage]
       Scenario.hookThrows Scenario.hookFailure)
    as W.
  edestruct W as (H & _ & O & _);
    [reflexivity | reflexivity | reflexivity | reflexivity | reflexivity
    | reflexivity |].
  unfold Demo.handler. rewrite O, H. split; reflexivity.
Defined.

(** A not-found error with no declared status, no hooks and no boundary:
    status 404, one record (not-found-error at info), the error
    rethrown. *)
Lemma no_boundary_rethrows_original_witness :
  snd (Demo.handler Demo.noBoundary (Demo.depsWith None None Demo.fetchOk)
         Scenario.notFound Demo.request) =
    Rejected (ThrownError Scenario.notFound) /\
  sentStatus
    (replyAfter
       (fst (Demo.handler Demo.noBoundary
               (Demo.depsWith None None Demo.fetchOk)
               Scenario.notFound Demo.request))) = Some 404%Z /\
  List.map (fun lr => (fst lr, event (snd lr)))
    (logsOf
       (fst (Demo.handler Demo.noBoundary
               (Demo.depsWith None None Demo.fetchOk)
               Scenario.notFound Demo.request))) =
    [(level_info, lit "not-found-error")].
Proof.
  edestruct
    (no_boundary_rethrows_original unit unit jsstring Demo.Component
       (Result jsstring)
       Demo.isRedirectFoundError Demo.isNotFoundError Demo.isHttpError
       Demo.toLowerCase Demo.parse Demo.createElement Demo.renderToString
       Demo.safeStringify Demo.newChunkExtractor Demo.getStyleTags
       Demo.getScriptTags Demo.noBoundary
       (Demo.depsWith None None Demo.fetchOk)
       Scenario.notFound Demo.request [] [])
    as (H & L & _ & S & _);
    [reflexivity | reflexivity | reflexivity | reflexivity | reflexivity |].
  unfold Demo.handler. rewrite H, L, S. repeat split.
Defined.

Lemma classified_record_logged_first_witness :
  exists rest,
    List.map (fun lr => (fst lr, event (snd lr)))
      (logsOf
         (fst (Demo.handler (Ok Demo.fragmentBoundary)
                 (Demo.depsWith None (Some [Scenario.hookThrows])
                    Demo.fetchOk)
                 Demo.httpError503 Demo.request))) =
      (level_error, lit "send-server-error") :: rest.
Proof.
  edestruct
    (classified_record_logged_first unit unit jsstring Demo.Component
       (Result jsstring)
       Demo.isRedirectFoundError Demo.isNotFoundError Demo.isHttpError
       Demo.toLowerCase Demo.parse Demo.createElement Demo.renderToString
       Demo.safeStringify Demo.newChunkExtractor Demo.getStyleTags
       Demo.getScriptTags (Ok Demo.fragmentBoundary)
       (Demo.depsWith None (Some [Scenario.hookThrows]) Demo.fetchOk)
       Demo.httpError503 Demo.request [])
    as (rest & L & _);
    [reflexivity | reflexivity | reflexivity |].
  unfold Demo.handler. rewrite L. cbn [List.map fst snd].
  eexists. reflexivity.
Defined.

Lemma fallback_success_headers_witness :
  callsOf
    (fst (Demo.handler (Ok Demo.documentBoundary)
            (Demo.depsWith None (Some [Demo.hookTeapot]) Demo.fetchOk)
            Demo.httpError503 Demo.request)) =
    [FetchWebpackStats; RenderToString] /\
  getHeader (lit "Content-Type")
    (sentHeaders
       (replyAfter
          (fst (Demo.handler (Ok Demo.documentBoundary)
                  (Demo.depsWith None (Some [Demo.hookTeapot]) Demo.fetchOk)
                  Demo.httpError503 Demo.request)))) =
    Some (HeaderString (lit "text/html; charset=utf-8")).
Proof.
  edestruct
    (fallback_success_headers unit unit jsstring Demo.Component
       (Result jsstring)
       Demo.isRedirectFoundError Demo.isNotFoundError Demo.isHttpError
       Demo.toLowerCase Demo.parse Demo.createElement Demo.renderToString
       Demo.safeStringify Demo.newChunkExtractor Demo.getStyleTags
       Demo.getScriptTags (Ok Demo.documentBoundary)
       (Demo.depsWith None (Some [Demo.hookTeapot]) Demo.fetchOk)
       Demo.httpError503 Demo.request)
    as (C & _ & T & _);
    [reflexivity | reflexivity | reflexivity | reflexivity | reflexivity
    | reflexivity |].
  split; [exact C | exact T].
Defined.

Lemma not_found_takes_precedence_witness :
  exists c,
    Demo.classification Scenario.notFound = ([], Normal c) /\
    cls_httpStatus c = 404%Z /\
    logLevel c = level_info /\
    logEvent c = lit "not-found-error".
Proof.
  exact (not_found_takes_precedence Demo.isNotFoundError Demo.isHttpError
           Demo.toLowerCase Scenario.notFound eq_refl).
Defined.

Lemma http_error_declared_status_witness :
  exists c,
    Demo.classification Demo.httpError503 = ([], Normal c) /\
    cls_httpStatus c = 503%Z /\
    logLevel c = level_error /\
    logEvent c = lit "send-server-error".
Proof.
  destruct (http_error_declared_status Demo.isNotFoundError Demo.isHttpError
              Demo.toLowerCase Demo.httpError503 503 eq_refl eq_refl eq_refl)
    as (c & Hc & Hs & H5 & _); [discriminate|].
  exists c. split; [exact Hc|]. split; [exact Hs|].
  apply H5. discriminate.
Defined.

Lemma generic_status_below_400_witness :
  exists c,
    Demo.classification Scenario.found302 = ([], Normal c) /\
    cls_httpStatus c = 302%Z /\
    logLevel c = level_error /\
    logEvent c = lit "send-server-error".
Proof.
  destruct (generic_status_below_400 Demo.isNotFoundError Demo.isHttpError
              Demo.toLowerCase Scenario.found302 eq_refl eq_refl eq_refl)
    as (c & Hc & _ & Hl & He & _ & Hs).
  exists c. split; [exact Hc|]. split; [|split; assumption].
  apply Hs; [reflexivity | discriminate].
Defined.

Lemma fallback_body_without_head_witness :
  fallbackBody Scenario.fragmentParts = lit "<div>Something went wrong</div>".
Proof.
  exact (fallback_body_without_head Scenario.fragmentParts eq_refl).
Defined.

(** A document with two closing head tags: the script goes before the
    first one. *)
Lemma fallback_body_injects_before_first_head_witness :
  exists before after,
    (List.length before <= List.length (lit "<html><head>"))%nat /\
    fallbackBody Scenario.documentParts =
      before ++ serverStateScript Scenario.documentParts ++ newline
        ++ (lit "<script src=/boundary.js></script>" ++ newline)
        ++ lit "</head>" ++ after.
Proof.
  destruct (fallback_body_injects_before_first_head Scenario.documentParts
              eq_refl eq_refl) as (before & after & _ & Hmin & Hbody).
  exists before, after. split.
  - apply (Hmin (lit "<html><head>") (lit "<body></head></body></html>")).
    reflexivity.
  - rewrite Hbody. reflexivity.
Defined.

(** U+00E9, then a surrogate pair: three code units, six bytes. *)
Lemma byte_length_bounds_witness :
  (3 <= byteLength [233%N; 55357%N; 56832%N] <= 9)%Z.
Proof.
  apply (byte_length_bounds [233%N; 55357%N; 56832%N]).
  repeat constructor.
Defined.

Lemma ascii_byte_length_witness :
  byteLength (lit "<h1>Oops</h1>") = 13%Z.
Proof.
  apply (ascii_byte_length (lit "<h1>Oops</h1>")).
  repeat constructor.
Defined.
